(* ===== verification/_CoqProject ===== *)
-Q . S2P
Prelude.v
Json.v
Table.v
Models.v
Fields.v
Serializers.v
Views.v
Urls.v
Api.v
