(* ===== verification/Prelude.v ===== *)
(** * A verification development of the [movies] Django REST application

    The repository is a Django app ([src/movies]) serving a movie catalogue
    over HTTP: genres, movies and reviews, stored through the Django ORM and
    serialised to JSON by Django REST framework (DRF).

    ** The program and how its parts interact

    - [src/movies/models.py] declares three tables: [Genre(name)],
      [Movie(title, audience, poster_url, description, genre)] and
      [Review(content, score, movie)], with foreign keys [genre] and [movie]
      declared [on_delete=CASCADE].
    - [src/movies/serializers.py] declares four serializers: the field
      allow-lists of the JSON shapes, one of which ([GenreDetailSerializer])
      nests the movies of a genre; [ReviewSerializer] is also the input
      validator of the two write endpoints.
    - [src/movies/views.py] holds six function views wrapped by DRF's
      [@api_view]: each fetches rows ([get_object_or_404], [objects.all]),
      validates input ([is_valid(raise_exception=True)]), writes
      ([save], [delete]) and answers with serialised data or a fixed message.
    - [src/movies/urls.py] binds six URL patterns to the views.
    Control flow of one request: router -> view -> ORM -> serializer ->
    response.  The database is the only state: every view is a function
    from a request and a database to a response and a database, and the
    application is the step [Urls.handle].

    ** Files, in dependency order, and what each models

    - [Prelude] (this file): text as lists of Unicode code points, Python's
      [str.strip], [str(int)], [repr] of a float ([float_repr]) and
      [format(n, 'X')] ([py_format_X]), the [result] error type with its bind
      notation ([movies_scope]), the [movies] hint databases, the shared
      tactics and the lemmas on stripping and decimal digits.
    - [Json]: JSON values and [dict.get] on a parsed object (last duplicate
      key wins).
    - [Table] (Module [Table]): one SQLite table with an [AUTOINCREMENT]
      primary key, its rows and its sequence [next_id]; the ORM
      primitives [all_rows], [get_row], [create_row], [save_row],
      [delete_row], [filter_rows], [delete_rows_where]; the invariant
      [table_wf]; the abstract view [to_map] (a [gmap Z R]) with the law
      of each primitive on it, and the commutation of writes on distinct
      ids.
    - [Models] (Module [Models]): the records [Genre], [Movie], [Review]
      of [models.py], the database [db], the ORM writes with the store's
      checks (an integer outside SQLite's 64-bit [INTEGER] raises
      [OverflowError], a dangling foreign key [IntegrityError]) and
      cascades, the referential-integrity invariant [db_wf], the step
      relation [orm_step] of all writes, and the sample catalogue
      [sample_db] the witnesses run on.
    - [Fields] (Module [Fields]): DRF's [CharField(max_length=100)] and
      [IntegerField], as [ModelSerializer] derives them from
      [Review.content] and [Review.score] (no range: Django's SQLite
      backend reports none); Python's [int()] on text and DRF's
      [re_decimal] suffix removal.
    - [Serializers] (Module [Serializers]): the four serializers' shapes,
      [ReviewSerializer.is_valid] with its errors, and [save] with and
      without an instance.
    - [Views] (Module [Views]): requests (any JSON value, or a
      form-encoded body), responses, [@api_view], the six views with
      DRF's 404/400 handling and Django's 500 for an error the store
      raises; the application invariant [app_inv].
    - [Urls] (Module [Urls]): [urlpatterns] and [app_name], [resolve]
      (first anchored match, [int] converter), [reverse] and the
      namespaced [reverse_name], the regular expressions Django compiles
      the routes to ([route_re]), and [handle], the application on one
      request, with its step relation [app_step].
    - [Api] (Module [Api]): the response shapes of the specification as a
      small JSON schema language, and the contract of each endpoint.

    ** What is proved (32 claims, listed with their ids in the manifest)

    - Behaviour of the endpoints (Views, Urls): create-then-read and
      update-then-read round trips, delete-then-404, 404 on missing ids,
      400 on invalid bodies with nothing written, the exact body of a
      400 for missing fields and for a body that is not an object, 500
      (not 404) for a review posted to a missing movie, 405 outside
      [@api_view], ids of deleted reviews never reused, the exact movie
      list of a genre's detail, the list endpoints listing every row
      exactly once, body members other than [content] and [score]
      ignored, form-encoded and JSON bodies equivalent; the same round
      trip over the URL patterns, with the example of the specification
      as witness.
    - Scores and the store (Models, Views): every integer is accepted by
      validation, a score in SQLite's range [[SQLITE_MIN, SQLITE_MAX]] is
      stored, and one outside it answers 500 with the database unchanged,
      on create and on update alike.
    - The type of every response (Api): each response [handle] gives
      satisfies the contract of its endpoint (status codes and body
      shapes of the specification).
    - Invariants by rule induction: [reachable_db_wf] over [orm_step] from
      the empty schema; [requests_preserve_inv] over [app_step] (integrity
      and admissible reviews); cascades of genre and movie deletion.
    - Isolation: [review_detail_commute], two [GET]/[PUT]/[DELETE]
      requests on different reviews commute (each answers as if alone,
      and the database ends the same in either order), from the
      commutation of [save_row] and [delete_row] on distinct ids.
    - Liveness: [reviews_can_be_emptied], from any state of the invariant
      a sequence of [DELETE] requests reaches a state with no review.
    - Routing: the six patterns are unambiguous ([route_re]), and
      [reverse] followed by [resolve] gives back the view and its id.
    - Validation (Fields, Serializers): what content and score are
      accepted and stored (lone surrogates refused with the first one
      named), the trimming, the serializer's output accepted back (round
      trip); a JSON float given as a score is read as the integer its
      value is when that is an integer below [10 ^ 16], and refused
      otherwise ([float_integer_field]).

    ** Bounds and fuel

    All recursion is structural except [digits_fuel], the decimal printer
    behind [str(int)]: its fuel is one more than the bit length of the
    number, which bounds its count of decimal digits; [digits_fuel_spec]
    and [py_str_int_fuel] prove that this fuel is always enough, so the
    printer never runs out.  [shortest_fuel], which moves the trailing
    zeros of a float's digits to its exponent, has the same fuel: each
    step divides by ten, and [shortest_spec] proves that no trailing zero
    is left.  Scores are unbounded integers ([Z]) up to the store, whose
    [INTEGER] column holds [Models.SQLITE_MIN] to [Models.SQLITE_MAX]
    (64 bits); DRF's [IntegerField] bounds only the length of a textual
    score ([MAX_STRING_LENGTH], 1000 characters).

    ** Modelling choices and what is not modelled

    - Text is a list of code points ([list Z]), so [max_length] counts
      characters as Python's [len] does; [txt] embeds ASCII literals.
    - Ids come from an auto-increment primary key (Django declares
      [AUTOINCREMENT] on SQLite): never reused, and a failed insert leaves
      the table unchanged.  Rows are kept in primary-key order; the code
      sets no [ordering], so this order is an assumption on the engine,
      and no theorem states an order of a listing.
    - A form-encoded body is read as the object of its values as strings
      (DRF's [get_value] for HTML input on required, non-nullable fields).
    - A JSON float is kept by its sign and the exact decimal value of its
      literal, and [float_repr] prints the shortest digits of that value.
      This is Python's [repr] of the parsed double whenever the literal
      has at most 15 significant digits ([DBL_DIG]) and lies in the
      range of normal doubles; longer literals, which [json.loads]
      rounds, and out-of-range ones ([inf], [0.0]) are outside the model.
    - The DRF version is not pinned; the URLconf's docstring cites Django
      2.2, and the model follows DRF 3.9, its contemporary, whose
      [CharField] adds [ProhibitSurrogateCharactersValidator] after the
      length and null-character validators.
    - Not modelled: non-ASCII decimal digits in [int()] (their set is the
      Unicode database of the Python version, which is not pinned either),
      multipart file parts, HEAD and OPTIONS requests (DRF's metadata
      depends on settings), the project-level URL prefix and
      [APPEND_SLASH] redirects (settings outside [src/]), [save()] of an
      instance whose row was deleted (no view reaches it), an id past
      [SQLITE_MAX] in a URL (the lookup itself overflows, a 500 the model
      answers with 404; recorded as a finding), a sequence past
      [SQLITE_MAX], a path ending in a newline (the [$] of Django's
      compiled pattern accepts it, [match_route] does not), and failures
      of the database engine.

    ** Further work

    1. Parameterising [Models] and the views by an interface of the
       store, so that the view theorems hold of any engine with the laws
       of [Table].
    2. HEAD and OPTIONS requests, and non-ASCII digits in [int()], once
       the DRF and Python versions are fixed.
*)

From Stdlib Require Import ZArith List String Ascii Lia.
From stdpp Require Import base list.
Import ListNotations.
Export String.StringSyntax.

Open Scope Z_scope.

(** ** Text *)

(** A Python [str]: a sequence of Unicode code points. *)
Definition text := list Z.

(** An ASCII literal as text. *)
Definition txt (s : string) : text :=
  map (fun c => Z.of_N (N_of_ascii c)) (list_ascii_of_string s).
Arguments txt s%_string_scope.

Declare Scope movies_scope.
Delimit Scope movies_scope with mv.
Open Scope movies_scope.

(** Python's [str.isspace] on one code point. *)
Definition py_isspace (c : Z) : bool :=
  ((9 <=? c) && (c <=? 13)) || ((28 <=? c) && (c <=? 32)) || (c =? 133)
  || (c =? 160) || (c =? 5760) || ((8192 <=? c) && (c <=? 8202))
  || (c =? 8232) || (c =? 8233) || (c =? 8239) || (c =? 8287)
  || (c =? 12288).

Fixpoint lstrip (s : text) : text :=
  match s with
  | [] => []
  | c :: r => if py_isspace c then lstrip r else s
  end.

Definition rstrip (s : text) : text := rev (lstrip (rev s)).

(** Python's [str.strip()] with no argument. *)
Definition strip (s : text) : text := rstrip (lstrip s).

(** Python's [str(n)] for an [int]: decimal digits with a leading minus.
    The recursion is on a fuel bounded by the bit length of [n], which is at
    least its number of decimal digits. *)
Fixpoint digits_fuel (fuel : nat) (n : Z) : text :=
  match fuel with
  | O => []
  | S f => if n <? 10 then [48 + n] else digits_fuel f (n / 10) ++ [48 + n mod 10]
  end.

Definition py_str_int (n : Z) : text :=
  let m := Z.abs n in
  (if n <? 0 then [45] else []) ++ digits_fuel (S (Z.to_nat (Z.log2 m))) m.

(** ** Python's [repr] of a float

    [json.loads] turns a number with a fraction or an exponent part into a
    [float].  A float is kept by its sign and the decimal value [m * 10 ^ e]
    of the literal; [float_repr] is CPython's [float.__repr__] (which [str]
    of a float also is): [format_float_short] with the ['r'] code and
    [Py_DTSF_ADD_DOT_0] on the shortest digits [_Py_dg_dtoa] returns, the
    digits [d1 ... dn] and the point position [decpt] of the value
    [0.d1...dn * 10 ^ decpt]. *)

(** The shortest digits of [m * 10 ^ e], [m > 0]: the trailing zeros of
    [m] moved to the exponent.  [m] has fewer trailing zeros than bits. *)
Fixpoint shortest_fuel (fuel : nat) (m e : Z) : Z * Z :=
  match fuel with
  | O => (m, e)
  | S f => if (0 <? m) && (m mod 10 =? 0) then shortest_fuel f (m / 10) (e + 1) else (m, e)
  end.

Definition shortest (m e : Z) : Z * Z := shortest_fuel (S (Z.to_nat (Z.log2 m))) m e.

(** [memset(p, '0', k)]. *)
Definition zeros (k : Z) : text := repeat 48 (Z.to_nat k).

(** [sprintf(p, "%+.02d", x)]: the sign, then at least two digits. *)
Definition exp_text (x : Z) : text :=
  (if x <? 0 then [45] else [43]) ++ (if Z.abs x <? 10 then [48] else []) ++ py_str_int (Z.abs x).

(** [format_float_short(d, 'r', 0, Py_DTSF_ADD_DOT_0, ...)]: an exponent
    when [decpt <= -4 || decpt > 16], with the decimal point after the
    first digit and no point for a single digit; otherwise zeros padded on
    the left ([0.000ddd]) or on the right ([ddd000.0]), or the point
    inside the digits.  Zero has the digits ["0"] and [decpt = 1]. *)
Definition float_repr (neg : bool) (m : N) (e : Z) : text :=
  let '(m', e') := if Z.of_N m =? 0 then (0, 0) else shortest (Z.of_N m) e in
  let digits := py_str_int m' in
  let n := Z.of_nat (length digits) in
  let decpt := n + e' in
  (if neg then [45] else []) ++
  (if (decpt <=? -4) || (16 <? decpt) then
     match digits with
     | [] => []
     | [d] => d :: [101] ++ exp_text (decpt - 1)
     | d :: r => d :: [46] ++ r ++ [101] ++ exp_text (decpt - 1)
     end
   else if decpt <=? 0 then [48; 46] ++ zeros (- decpt) ++ digits
   else if n <=? decpt then digits ++ zeros (decpt - n) ++ [46; 48]
   else firstn (Z.to_nat decpt) digits ++ [46] ++ skipn (Z.to_nat decpt) digits).

(** [format(n, 'X')] for [n >= 0]: upper-case hexadecimal digits, taken
    nibble by nibble ([n & 15], then [n >> 4]); the fuel is the bit length
    of [n], at least its count of hexadecimal digits. *)
Fixpoint hex_fuel (fuel : nat) (n : Z) : text :=
  match fuel with
  | O => []
  | S f =>
      let d := Z.land n 15 in
      let c := if d <? 10 then 48 + d else 55 + d in
      if n <? 16 then [c] else hex_fuel f (Z.shiftr n 4) ++ [c]
  end.

Definition py_format_X (n : Z) : text := hex_fuel (S (Z.to_nat (Z.log2 n))) n.

(** ** Results *)

(** A computation that succeeds with an [A] or fails with an [E]. *)
Inductive result (A E : Type) : Type :=
  | Ok (a : A)
  | Err (e : E).
Arguments Ok {A E} a.
Arguments Err {A E} e.

Definition rbind {A B E} (r : result A E) (k : A -> result B E) : result B E :=
  match r with Ok a => k a | Err e => Err e end.

Notation "x <-? c ;; k" := (rbind c (fun x => k))
  (at level 100, c at next level, right associativity) : movies_scope.

(** ** Automation *)

Create HintDb movies.
Create Rewrite HintDb movies.

Ltac invc H := inversion H; subst; clear H.

(** Case on the boolean tests of the goal, innermost first. *)
Ltac case_bool :=
  match goal with
  | |- context [if ?b then _ else _] =>
      lazymatch b with context [if _ then _ else _] => fail | _ => idtac end;
      destruct b eqn:?
  end.

(** ** Generic lemmas *)

Lemma lstrip_head s : match lstrip s with [] => True | c :: _ => py_isspace c = false end.
Proof. induction s as [|c s IH]; simpl; [done|]. destruct (py_isspace c) eqn:E; [done|]. exact E. Qed.

Lemma lstrip_length s : (length (lstrip s) <= length s)%nat.
Proof. induction s as [|c s IH]; simpl; [lia|]. destruct (py_isspace c); simpl; lia. Qed.

Lemma lstrip_idem s : lstrip (lstrip s) = lstrip s.
Proof.
  pose proof (lstrip_head s) as H. destruct (lstrip s) as [|c r] eqn:E; [done|].
  simpl. by rewrite H.
Qed.

Lemma strip_length s : (length (strip s) <= length s)%nat.
Proof.
  unfold strip, rstrip. rewrite length_rev.
  pose proof (lstrip_length (rev (lstrip s))). rewrite length_rev in H.
  pose proof (lstrip_length s). lia.
Qed.

Lemma rbind_Ok {A B E} (r : result A E) (k : A -> result B E) b :
  rbind r k = Ok b <-> exists a, r = Ok a /\ k a = Ok b.
Proof. destruct r; simpl; split; [eauto|intros (?&?&?);congruence|done|intros (?&?&?);congruence]. Qed.

Lemma lstrip_app l m :
  lstrip (l ++ m) = match lstrip l with [] => lstrip m | x => x ++ m end.
Proof.
  induction l as [|c l IH]; simpl; [done|].
  destruct (py_isspace c); [done|done].
Qed.

Lemma rstrip_cons c r : py_isspace c = false -> rstrip (c :: r) = c :: rstrip r.
Proof.
  intros Hc. unfold rstrip. simpl. rewrite lstrip_app.
  destruct (lstrip (rev r)) eqn:E; simpl.
  - by rewrite Hc.
  - by rewrite rev_app_distr.
Qed.

Lemma rstrip_idem s : rstrip (rstrip s) = rstrip s.
Proof. unfold rstrip. by rewrite rev_involutive, lstrip_idem. Qed.

Lemma strip_idem s : strip (strip s) = strip s.
Proof.
  unfold strip. pose proof (lstrip_head s) as H.
  destruct (lstrip s) as [|c r]; [done|].
  rewrite rstrip_cons by done. simpl. rewrite H, rstrip_cons by done.
  by rewrite rstrip_idem.
Qed.

(** [lstrip] removes exactly a prefix of whitespace. *)
Lemma lstrip_spaces ws l :
  Forall (fun c => py_isspace c = true) ws -> lstrip (ws ++ l) = lstrip l.
Proof. induction 1 as [|c ws Hc _ IH]; simpl; [done|]. by rewrite Hc. Qed.

Lemma lstrip_split l :
  exists ws, l = ws ++ lstrip l /\ Forall (fun c => py_isspace c = true) ws.
Proof.
  induction l as [|c l [ws [Hl Hws]]]; simpl; [by exists []|].
  destruct (py_isspace c) eqn:Hc.
  - exists (c :: ws). split; [simpl; by f_equal|by constructor].
  - by exists [].
Qed.

Lemma lstrip_nospace_head c l : py_isspace c = false -> lstrip (c :: l) = c :: l.
Proof. simpl. by intros ->. Qed.

(** [strip] removes whitespace at both ends and nothing else. *)
Lemma strip_split s :
  exists ws1 ws2, s = ws1 ++ strip s ++ ws2 /\
    Forall (fun c => py_isspace c = true) ws1 /\ Forall (fun c => py_isspace c = true) ws2.
Proof.
  destruct (lstrip_split s) as [ws1 [H1 Hs1]].
  destruct (lstrip_split (rev (lstrip s))) as [ws2 [H2 Hs2]].
  exists ws1, (rev ws2). split_and!; [|done|by apply Forall_rev].
  rewrite H1 at 1. f_equal. unfold strip, rstrip.
  apply (f_equal (@rev Z)) in H2. by rewrite rev_involutive, rev_app_distr in H2.
Qed.

Lemma strip_frame ws1 x ws2 c d :
  Forall (fun c => py_isspace c = true) ws1 -> Forall (fun c => py_isspace c = true) ws2 ->
  head x = Some c -> head (rev x) = Some d -> py_isspace c = false -> py_isspace d = false ->
  strip (ws1 ++ x ++ ws2) = x.
Proof.
  intros H1 H2 Hc Hd Hsc Hsd. destruct x as [|c' x']; [discriminate|]. injection Hc as ->.
  unfold strip. rewrite lstrip_spaces by done. rewrite <- app_comm_cons, lstrip_nospace_head by done.
  unfold rstrip. rewrite app_comm_cons, rev_app_distr, lstrip_spaces by by apply Forall_rev.
  destruct (rev (c :: x')) as [|d' r] eqn:E; [discriminate|]. injection Hd as ->.
  rewrite lstrip_nospace_head by done. by rewrite <- E, rev_involutive.
Qed.

(** A text with no whitespace is its own [strip]. *)
Lemma strip_nospace s : Forall (fun c => py_isspace c = false) s -> strip s = s.
Proof.
  intros H. unfold strip.
  assert (Hl : forall l, Forall (fun c => py_isspace c = false) l -> lstrip l = l).
  { intros [|c l] Hf; simpl; [done|]. apply Forall_cons in Hf as [-> _]. done. }
  rewrite Hl by done. unfold rstrip. rewrite Hl; [apply rev_involutive|].
  by apply Forall_rev.
Qed.

(** The decimal value of a list of digit code points. *)
Definition digits_value (acc : Z) (l : text) : Z := fold_left (fun a c => a * 10 + (c - 48)) l acc.

Lemma digits_fuel_S f n :
  digits_fuel (S f) n = if n <? 10 then [48 + n] else digits_fuel f (n / 10) ++ [48 + n mod 10].
Proof. reflexivity. Qed.

Lemma digits_fuel_spec f n :
  0 <= n < 2 ^ Z.of_nat (S f) ->
  digits_fuel (S f) n <> [] /\ Forall (fun c => 48 <= c <= 57) (digits_fuel (S f) n) /\
  digits_value 0 (digits_fuel (S f) n) = n.
Proof.
  revert n; induction f as [|f IH]; intros n Hn.
  - simpl in Hn. simpl. destruct (Z.ltb_spec n 10); [|lia].
    split_and!; [done|apply Forall_singleton; lia|unfold digits_value; simpl; lia].
  - rewrite digits_fuel_S. destruct (Z.ltb_spec n 10).
    + split_and!; [done|apply Forall_singleton; lia|unfold digits_value; simpl; lia].
    + rewrite Nat2Z.inj_succ, Z.pow_succ_r in Hn by lia.
      set (P := 2 ^ Z.of_nat (S f)) in *.
      destruct (IH (n / 10)) as (Hne & Hd & Hv); [Z.to_euclidean_division_equations; lia|].
      split_and!.
      * intros [_ ?]%app_eq_nil. discriminate.
      * apply Forall_app; split; [done|]. constructor; [|done].
        Z.to_euclidean_division_equations; lia.
      * unfold digits_value in *. rewrite fold_left_app, Hv. simpl.
        Z.to_euclidean_division_equations; lia.
Qed.

Lemma py_str_int_fuel n :
  let m := Z.abs n in 0 <= m < 2 ^ Z.of_nat (S (Z.to_nat (Z.log2 m))).
Proof.
  simpl. split; [lia|]. rewrite Nat2Z.inj_succ, Z2Nat.id by apply Z.log2_nonneg.
  destruct (Z.eq_dec (Z.abs n) 0) as [->|Hne]; [done|].
  apply Z.log2_spec; lia.
Qed.

(** The decimal printer's digits: the count [n] of digits of [0 < x]
    gives [10 ^ (n - 1) <= x < 10 ^ n], and the last digit is [x mod 10]. *)
Lemma digits_fuel_bounds f x :
  0 < x < 2 ^ Z.of_nat (S f) ->
  10 ^ (Z.of_nat (length (digits_fuel (S f) x)) - 1) <= x < 10 ^ Z.of_nat (length (digits_fuel (S f) x)).
Proof.
  revert x; induction f as [|f IH]; intros x Hx.
  - simpl in Hx. rewrite digits_fuel_S. destruct (Z.ltb_spec x 10); [simpl; lia|lia].
  - rewrite digits_fuel_S. destruct (Z.ltb_spec x 10); [simpl; lia|].
    rewrite Nat2Z.inj_succ, Z.pow_succ_r in Hx by lia.
    destruct (IH (x / 10)) as [Hlo Hhi]; [Z.to_euclidean_division_equations; lia|].
    rewrite length_app, Nat2Z.inj_add. cbn [length Z.of_nat].
    set (k := Z.of_nat (length (digits_fuel (S f) (x / 10)))) in *.
    assert (Hk : 1 <= k).
    { destruct (Z.eq_dec k 0) as [E|]; [|unfold k in *; lia].
      rewrite E in Hhi. simpl in Hhi. Z.to_euclidean_division_equations; lia. }
    replace (k + Z.of_nat 1 - 1) with (Z.succ (k - 1)) by lia.
    replace (k + Z.of_nat 1) with (Z.succ k) by lia. rewrite !Z.pow_succ_r by lia. Z.to_euclidean_division_equations; lia.
Qed.

Lemma digits_fuel_last f x : 0 <= x -> exists pre, digits_fuel (S f) x = pre ++ [48 + x mod 10].
Proof.
  intros Hx. rewrite digits_fuel_S. destruct (Z.ltb_spec x 10).
  - exists []. by rewrite Z.mod_small by lia.
  - by eexists.
Qed.

Lemma digits_value_app acc l1 l2 : digits_value acc (l1 ++ l2) = digits_value (digits_value acc l1) l2.
Proof. apply fold_left_app. Qed.

Lemma digits_value_zeros acc k : 0 <= k -> digits_value acc (zeros k) = acc * 10 ^ k.
Proof.
  intros Hk. unfold zeros. rewrite <- (Z2Nat.id k) at 2 by done.
  generalize (Z.to_nat k) as j. intros j. unfold digits_value.
  revert acc; induction j as [|j IH]; intros acc; simpl; [lia|].
  rewrite IH, (Nat2Z.inj_succ j), Z.pow_succ_r by lia. nia.
Qed.

(** [shortest] moves every trailing zero to the exponent. *)
Lemma shortest_fuel_spec f m e :
  0 < m < 2 ^ Z.of_nat f ->
  let '(m', e') := shortest_fuel f m e in
  0 < m' /\ m' mod 10 <> 0 /\ e <= e' /\ m = m' * 10 ^ (e' - e).
Proof.
  revert m e; induction f as [|f IH]; intros m e Hm; [simpl in Hm; lia|]. cbn [shortest_fuel].
  destruct (Z.ltb_spec 0 m); [|lia]. destruct (Z.eqb_spec (m mod 10) 0) as [H0|H0]; simpl.
  - rewrite Nat2Z.inj_succ, Z.pow_succ_r in Hm by lia.
    specialize (IH (m / 10) (e + 1)). destruct (shortest_fuel f (m / 10) (e + 1)) as [m' e'].
    destruct IH as (Hp & Hd & He & Hv); [Z.to_euclidean_division_equations; lia|].
    split_and!; [done|done|lia|].
    replace (e' - e) with (Z.succ (e' - (e + 1))) by lia. rewrite Z.pow_succ_r by lia.
    Z.to_euclidean_division_equations; nia.
  - split_and!; [lia|done|lia|]. rewrite Z.sub_diag. lia.
Qed.

Lemma shortest_spec m e :
  0 < m -> let '(m', e') := shortest m e in
  0 < m' /\ m' mod 10 <> 0 /\ e <= e' /\ m = m' * 10 ^ (e' - e).
Proof.
  intros Hm. apply shortest_fuel_spec. pose proof (py_str_int_fuel m) as H.
  cbv zeta in H. rewrite Z.abs_eq in H by lia. lia.
Qed.

(** A power of ten divides [m * 10 ^ j], [m] without a final zero,
    exactly when its exponent is at most [j]. *)
Lemma pow10_mod m j k :
  0 < m -> m mod 10 <> 0 -> 0 <= j -> 0 <= k -> (m * 10 ^ j) mod 10 ^ k = 0 <-> k <= j.
Proof.
  intros Hm H10 Hj Hk.
  assert (Hnz : forall i, 0 <= i -> 10 ^ i <> 0) by (intros i Hi; apply Z.pow_nonzero; lia).
  rewrite Z.mod_divide by auto. split.
  - intros H. destruct (Z.le_gt_cases k j) as [|Hlt]; [done|exfalso].
    replace k with (j + (k - j)) in H by lia. rewrite Z.pow_add_r, (Z.mul_comm m) in H by lia.
    apply Z.mul_divide_cancel_l in H; [|auto].
    apply H10, (proj2 (Z.mod_divide m 10 ltac:(lia))). eapply Z.divide_trans; [|exact H].
    replace (k - j) with (Z.succ (k - j - 1)) by lia. rewrite Z.pow_succ_r by lia.
    apply Z.divide_factor_l.
  - intros Hle. replace j with (k + (j - k)) by lia. rewrite Z.pow_add_r by lia.
    apply Z.divide_mul_r, Z.divide_factor_l.
Qed.

(** [x] of [n] digits times [10 ^ e'] is below [10 ^ 16] exactly when it
    has at most sixteen digits. *)
Lemma pow10_scaled_lt x n e' :
  10 ^ (n - 1) <= x < 10 ^ n -> 1 <= n -> 0 <= e' -> (x * 10 ^ e' < 10 ^ 16 <-> n + e' <= 16).
Proof.
  intros [Hlo Hhi] Hn He. pose proof (Z.pow_pos_nonneg 10 e' ltac:(lia) He) as Hp. split.
  - intros H. destruct (Z.le_gt_cases (n + e') 16) as [|Hgt]; [done|exfalso].
    assert (Hm : 10 ^ 16 <= 10 ^ (n - 1 + e')) by (apply Z.pow_le_mono_r; lia).
    rewrite Z.pow_add_r in Hm by lia. nia.
  - intros H. assert (Hm : 10 ^ (n + e') <= 10 ^ 16) by (apply Z.pow_le_mono_r; lia).
    rewrite Z.pow_add_r in Hm by lia. nia.
Qed.

Lemma find_None_Forall {A} (f : A -> bool) l : find f l = None <-> Forall (fun x => f x = false) l.
Proof.
  induction l as [|x l IH]; simpl; [split; [constructor|done]|].
  rewrite Forall_cons, <- IH. destruct (f x); naive_solver.
Qed.
