(* ===== verification/Json.v ===== *)
(** * JSON values: the wire representation of requests and responses

    DRF parses a JSON request body into Python values and renders a response
    body from them.  [json] has one constructor per JSON value: a number
    without a fraction or an exponent part is a Python [int], any other
    number a [float], kept by its sign and decimal value [m * 10 ^ e]
    ([Prelude.float_repr] prints it); an object is its list of members in source order, and
    [obj_get] reads a member as [dict.get] does on the dictionary
    [json.loads] builds, where the last of duplicate keys wins. *)

From Stdlib Require Import ZArith List Lia.
From stdpp Require Import base list.
From S2P Require Import Prelude.
Import ListNotations.
Open Scope Z_scope.
#[local] Set Warnings "-register-all".

Inductive json : Type :=
  | JNull
  | JBool (b : bool)
  | JInt (z : Z)
  | JFloat (neg : bool) (m : N) (e : Z)
  | JStr (s : text)
  | JArr (l : list json)
  | JObj (members : list (text * json)).

(** A parsed JSON object, as [request.data] holds it. *)
Definition jobject := list (text * json).

Fixpoint text_eqb (a b : text) : bool :=
  match a, b with
  | [], [] => true
  | x :: a', y :: b' => (x =? y) && text_eqb a' b'
  | _, _ => false
  end.

(** [data.get(key)]: the value of the last member named [key]. *)
Fixpoint obj_get (key : text) (o : jobject) : option json :=
  match o with
  | [] => None
  | (k, v) :: r =>
      match obj_get key r with
      | Some w => Some w
      | None => if text_eqb k key then Some v else None
      end
  end.

(** [type(v).__name__] of the Python value [json.loads] gives. *)
Definition json_type_name (j : json) : text :=
  match j with
  | JNull => txt "NoneType" | JBool _ => txt "bool" | JInt _ => txt "int"
  | JFloat _ _ _ => txt "float"
  | JStr _ => txt "str" | JArr _ => txt "list" | JObj _ => txt "dict"
  end.

(** A response body [{'message': m}]. *)
Definition message (m : text) : json := JObj [(txt "message", JStr m)].

Lemma text_eqb_eq a b : text_eqb a b = true <-> a = b.
Proof.
  revert b; induction a as [|x a IH]; intros [|y b]; simpl; try done.
  rewrite andb_true_iff, Z.eqb_eq, IH. split; [intros [-> ->]; done|]. intros H; by simplify_eq.
Qed.

Lemma text_eqb_refl a : text_eqb a a = true.
Proof. by apply text_eqb_eq. Qed.

#[export] Hint Rewrite text_eqb_refl : movies.

(** A member whose key occurs nowhere else is read back. *)
Lemma obj_get_unique k v o1 o2 :
  obj_get k o2 = None -> obj_get k (o1 ++ (k, v) :: o2) = Some v.
Proof.
  intros H. induction o1 as [|[k' v'] o1 IH]; simpl.
  - by rewrite H, text_eqb_refl.
  - by rewrite IH.
Qed.

Lemma obj_get_cons_ne k k' v o :
  k' <> k -> obj_get k ((k', v) :: o) = obj_get k o.
Proof.
  intros Hne. simpl. destruct (obj_get k o); [done|].
  destruct (text_eqb k' k) eqn:E; [apply text_eqb_eq in E; congruence|done].
Qed.

Lemma obj_get_app k o1 o2 :
  obj_get k (o1 ++ o2) = match obj_get k o2 with Some w => Some w | None => obj_get k o1 end.
Proof.
  induction o1 as [|[k' v'] o1 IH]; simpl.
  - by destruct (obj_get k o2).
  - rewrite IH. by destruct (obj_get k o2).
Qed.

(** Members under other keys are never read. *)
Lemma obj_get_absent k o : Forall (fun kv => kv.1 <> k) o -> obj_get k o = None.
Proof.
  induction 1 as [|[k' v] o Hk _ IH]; [done|]. simpl in Hk.
  by rewrite obj_get_cons_ne.
Qed.

Lemma obj_get_insert_absent k o1 extra o2 :
  Forall (fun kv => kv.1 <> k) extra -> obj_get k (o1 ++ extra ++ o2) = obj_get k (o1 ++ o2).
Proof.
  intros Hx. rewrite !obj_get_app, (obj_get_absent _ _ Hx). by destruct (obj_get k o2).
Qed.
