(* ===== verification/Table.v ===== *)
(** * One table of the relational store, behind the Django ORM

    Each model of [models.py] is a table with an auto-increment integer
    primary key [id].  A table is its rows and the next id the key
    sequence hands out: ids are never reused, as with the [AUTOINCREMENT]
    key Django declares on SQLite, the store this development assumes.
    The rows are kept in primary-key order.  The code asks for no order
    ([objects.all()] without [order_by], no [Meta.ordering]); the order of
    [all_rows] is the one SQLite returns for a table scan, an assumption
    about the store that no theorem of the development depends on.

    The ORM primitives the views use are [all_rows] ([objects.all()]),
    [get_row] ([objects.get(id=...)], [None] for [DoesNotExist]),
    [create_row] ([objects.create(...)]), [save_row] ([instance.save()] of
    a row that exists), [delete_row] ([instance.delete()]), [filter_rows]
    ([objects.filter(...)]) and [delete_rows_where] ([filter(...).delete()]).

    [table_wf] is the invariant (ids positive, strictly increasing and
    below [next_id]) that every primitive preserves.  [to_map t : gmap Z R]
    is the table as a finite map; the lemmas relating each primitive to
    the matching map operation are the means by which the laws the views
    use ([get_create_eq], [get_save_ne], [get_delete_eq], ...) are
    proved.  Saves and deletes of distinct ids commute ([save_save_ne],
    [save_delete_ne], [delete_delete]). *)

From Stdlib Require Import ZArith List Sorted Lia.
From stdpp Require Import base list gmap.
From S2P Require Import Prelude.
Import ListNotations.
Open Scope Z_scope.

Module Table.

Record table (R : Type) := mk_table { rows : list (Z * R); next_id : Z }.
Arguments mk_table {R} rows next_id.
Arguments rows {R} t.
Arguments next_id {R} t.

Section Ops.
Context {R : Type}.

(** A fresh table: no rows, the sequence starts at 1. *)
Definition empty_table : table R := mk_table [] 1.

Definition all_rows (t : table R) : list (Z * R) := rows t.

Fixpoint find_row (id : Z) (l : list (Z * R)) : option R :=
  match l with
  | [] => None
  | (k, v) :: l' => if k =? id then Some v else find_row id l'
  end.

Definition get_row (id : Z) (t : table R) : option R := find_row id (rows t).

(** [INSERT]: the row gets the next id of the sequence. *)
Definition create_row (r : R) (t : table R) : Z * table R :=
  let id := next_id t in (id, mk_table (rows t ++ [(id, r)]) (id + 1)).

(** [UPDATE ... WHERE id = ...]: every column of the row is overwritten. *)
Definition save_row (id : Z) (r : R) (t : table R) : table R :=
  mk_table (map (fun '(k, v) => if k =? id then (k, r) else (k, v)) (rows t))
           (next_id t).

(** [DELETE ... WHERE id = ...]. *)
Definition delete_row (id : Z) (t : table R) : table R :=
  mk_table (List.filter (fun '(k, _) => negb (k =? id)) (rows t)) (next_id t).

(** [SELECT ... WHERE p(row)], in primary-key order. *)
Definition filter_rows (p : R -> bool) (t : table R) : list (Z * R) :=
  List.filter (fun '(_, v) => p v) (rows t).

(** [DELETE ... WHERE p(row)]. *)
Definition delete_rows_where (p : R -> bool) (t : table R) : table R :=
  mk_table (List.filter (fun '(_, v) => negb (p v)) (rows t)) (next_id t).

(** ** Well-formedness *)

(** The keys of [l] are strictly increasing, above [lo] and below [next]. *)
Fixpoint keys_between (lo next : Z) (l : list (Z * R)) : bool :=
  match l with
  | [] => true
  | (k, _) :: l' => (lo <? k) && (k <? next) && keys_between k next l'
  end.

Definition table_wf (t : table R) : bool :=
  (0 <? next_id t) && keys_between 0 (next_id t) (rows t).
Arguments table_wf : simpl never.

(** The abstract table. *)
Definition to_map (t : table R) : gmap Z R := list_to_map (rows t).

End Ops.

Arguments empty_table {R}.

Section Lemmas.
Context {R : Type}.
Implicit Types (t : table R) (l : list (Z * R)).

Lemma keys_between_bounds lo next l k :
  keys_between lo next l = true -> k ∈ l.*1 -> lo < k < next.
Proof.
  revert lo; induction l as [|[k' v] l IH]; intros lo H Hin; simpl in *.
  - by apply elem_of_nil in Hin.
  - apply andb_true_iff in H as [[H1 H2]%andb_true_iff H3].
    apply Z.ltb_lt in H1; apply Z.ltb_lt in H2.
    apply elem_of_cons in Hin as [->|Hin]; [lia|].
    specialize (IH _ H3 Hin); lia.
Qed.

Lemma keys_between_lower lo lo' next l :
  lo' <= lo -> keys_between lo next l = true -> keys_between lo' next l = true.
Proof.
  destruct l as [|[k v] l]; simpl; [done|].
  intros Hle [[H1 H2]%andb_true_iff H3]%andb_true_iff.
  apply Z.ltb_lt in H1. rewrite H2, H3, (proj2 (Z.ltb_lt _ _)); [done|lia].
Qed.

Lemma keys_between_filter lo next l (p : Z * R -> bool) :
  keys_between lo next l = true -> keys_between lo next (List.filter p l) = true.
Proof.
  revert lo; induction l as [|[k v] l IH]; intros lo H; simpl in *; [done|].
  apply andb_true_iff in H as [[H1 H2]%andb_true_iff H3].
  destruct (p (k, v)); simpl.
  - by rewrite H1, H2, IH.
  - apply IH, (keys_between_lower k); [apply Z.ltb_lt in H1; lia|done].
Qed.

Lemma keys_between_snoc lo next l r :
  lo < next -> keys_between lo next l = true ->
  keys_between lo (next + 1) (l ++ [(next, r)]) = true.
Proof.
  revert lo; induction l as [|[k v] l IH]; intros lo Hlt H; simpl in *.
  - rewrite (proj2 (Z.ltb_lt _ _) Hlt), (proj2 (Z.ltb_lt _ _)); [done|lia].
  - apply andb_true_iff in H as [[H1 H2]%andb_true_iff H3].
    rewrite H1, IH by (try apply Z.ltb_lt; done).
    apply Z.ltb_lt in H2. rewrite (proj2 (Z.ltb_lt _ _)); [done|lia].
Qed.

Lemma keys_between_NoDup lo next l :
  keys_between lo next l = true -> NoDup l.*1.
Proof.
  revert lo; induction l as [|[k v] l IH]; intros lo H; simpl in *; [constructor|].
  apply andb_true_iff in H as [_ H3]. constructor; [|by eapply IH].
  intros Hin. pose proof (keys_between_bounds _ _ _ _ H3 Hin). lia.
Qed.

Lemma save_row_keys id r l :
  (map (fun '(k, v) => if k =? id then (k, r) else (k, v)) l).*1 = l.*1.
Proof. induction l as [|[k v] l IH]; simpl; [done|]. destruct (k =? id); simpl; by f_equal. Qed.

Lemma keys_between_keys lo next l1 l2 :
  l1.*1 = l2.*1 -> keys_between lo next l1 = keys_between lo next l2.
Proof.
  revert lo l2; induction l1 as [|[k v] l1 IH]; intros lo [|[k' v'] l2] H;
    simpl in *; try done. injection H as -> H. by rewrite (IH _ l2).
Qed.

Lemma table_wf_NoDup t : table_wf t = true -> NoDup (rows t).*1.
Proof. unfold table_wf. intros [_ H]%andb_true_iff. by eapply keys_between_NoDup. Qed.

(** Every id of a well-formed table lies in [1, next_id). *)
Lemma table_wf_key t k : table_wf t = true -> k ∈ (rows t).*1 -> 0 < k < next_id t.
Proof. unfold table_wf. intros [_ H]%andb_true_iff. by eapply keys_between_bounds. Qed.

Lemma find_row_to_map id l : find_row id l = (list_to_map l : gmap Z R) !! id.
Proof.
  induction l as [|[k v] l IH]; simpl; [done|].
  destruct (Z.eqb_spec k id) as [->|Hne].
  - by rewrite lookup_insert_eq.
  - by rewrite lookup_insert_ne.
Qed.

Lemma next_id_fresh t : table_wf t = true -> next_id t ∉ (rows t).*1.
Proof. intros Hwf Hin. pose proof (table_wf_key t _ Hwf Hin). lia. Qed.

#[local] Ltac wf_split := unfold table_wf in *; simpl;
  repeat match goal with H : _ && _ = true |- _ => apply andb_true_iff in H as [? ?] end.

(** ** Every primitive preserves the invariant *)

Lemma create_row_wf r t : table_wf t = true -> table_wf (create_row r t).2 = true.
Proof.
  intros Hwf. wf_split. apply Z.ltb_lt in H.
  rewrite (proj2 (Z.ltb_lt _ _)) by lia. by apply keys_between_snoc.
Qed.

Lemma save_row_wf id r t : table_wf t = true -> table_wf (save_row id r t) = true.
Proof. intros Hwf. wf_split. rewrite H. by erewrite keys_between_keys by apply save_row_keys. Qed.

Lemma delete_row_wf id t : table_wf t = true -> table_wf (delete_row id t) = true.
Proof. intros Hwf. wf_split. rewrite H. by apply keys_between_filter. Qed.

Lemma delete_rows_where_wf p t : table_wf t = true -> table_wf (delete_rows_where p t) = true.
Proof. intros Hwf. wf_split. rewrite H. by apply keys_between_filter. Qed.

Lemma empty_table_wf : table_wf (@empty_table R) = true.
Proof. done. Qed.


(** ** Refinement of the abstract table *)

Lemma get_row_spec id t : get_row id t = to_map t !! id.
Proof. apply find_row_to_map. Qed.

Lemma create_row_spec r t :
  table_wf t = true ->
  (create_row r t).1 = next_id t /\ to_map t !! next_id t = None /\
  to_map (create_row r t).2 = <[next_id t := r]> (to_map t).
Proof.
  intros Hwf. pose proof (next_id_fresh t Hwf).
  split; [done|]. split; [by apply not_elem_of_list_to_map_1|].
  unfold to_map; simpl. by rewrite list_to_map_snoc.
Qed.

Lemma save_row_spec id r t : to_map (save_row id r t) = alter (fun _ => r) id (to_map t).
Proof.
  unfold to_map, save_row; simpl. induction (rows t) as [|[k v] l IH]; simpl.
  - by rewrite alter_empty.
  - destruct (Z.eqb_spec k id) as [->|Hne]; rewrite IH.
    + by rewrite insert_alter_eq, alter_insert, decide_True.
    + by rewrite insert_alter_ne.
Qed.

Lemma delete_row_spec id t : to_map (delete_row id t) = delete id (to_map t).
Proof.
  unfold to_map, delete_row; simpl. induction (rows t) as [|[k v] l IH]; simpl.
  - by rewrite delete_empty.
  - destruct (Z.eqb_spec k id) as [->|Hne]; simpl; rewrite IH.
    + by rewrite delete_insert_eq.
    + by rewrite insert_delete_ne.
Qed.

Lemma delete_rows_where_spec p t :
  table_wf t = true ->
  to_map (delete_rows_where p t) = filter (fun kv => p kv.2 = false) (to_map t).
Proof.
  intros Hwf%table_wf_NoDup. unfold to_map, delete_rows_where; simpl in *.
  induction (rows t) as [|[k v] l IH]; simpl in *.
  - by rewrite map_filter_empty.
  - apply NoDup_cons in Hwf as [Hk Hnd].
    destruct (p v) eqn:Hp; simpl; rewrite IH by done.
    + rewrite map_filter_insert_False by (simpl; congruence).
      by rewrite delete_id by (by apply not_elem_of_list_to_map_1).
    + by rewrite map_filter_insert_True.
Qed.

Lemma filter_rows_spec p t k v :
  table_wf t = true ->
  (k, v) ∈ filter_rows p t <-> to_map t !! k = Some v /\ p v = true.
Proof.
  intros Hwf%table_wf_NoDup. unfold filter_rows, to_map.
  rewrite list_elem_of_In, filter_In, <- list_elem_of_In, <- elem_of_list_to_map by done.
  done.
Qed.

(** ** Laws of the primitives, as the views use them *)

Lemma get_create_eq r t :
  table_wf t = true -> get_row (create_row r t).1 (create_row r t).2 = Some r.
Proof.
  intros Hwf. rewrite get_row_spec. destruct (create_row_spec r t Hwf) as (-> & _ & ->).
  by rewrite lookup_insert_eq.
Qed.

Lemma get_create_ne r t id :
  table_wf t = true -> id <> next_id t -> get_row id (create_row r t).2 = get_row id t.
Proof.
  intros Hwf Hne. rewrite !get_row_spec. destruct (create_row_spec r t Hwf) as (_ & _ & ->).
  by rewrite lookup_insert_ne.
Qed.

Lemma get_save_eq id r t : get_row id (save_row id r t) = (fun _ => r) <$> get_row id t.
Proof. by rewrite !get_row_spec, save_row_spec, lookup_alter_eq. Qed.

Lemma get_save_ne id id' r t : id <> id' -> get_row id' (save_row id r t) = get_row id' t.
Proof. intros Hne. by rewrite !get_row_spec, save_row_spec, lookup_alter_ne. Qed.

Lemma get_delete_eq id t : get_row id (delete_row id t) = None.
Proof. by rewrite get_row_spec, delete_row_spec, lookup_delete_eq. Qed.

Lemma get_delete_ne id id' t : id <> id' -> get_row id' (delete_row id t) = get_row id' t.
Proof. intros Hne. by rewrite !get_row_spec, delete_row_spec, lookup_delete_ne. Qed.

(** ** Writes on distinct rows commute *)

Lemma save_save_ne a b r r' t :
  a <> b -> save_row a r (save_row b r' t) = save_row b r' (save_row a r t).
Proof.
  intros Hne. unfold save_row; simpl. f_equal. rewrite !map_map.
  apply map_ext. intros [k v].
  destruct (Z.eqb_spec k b) as [Hb|Hb], (Z.eqb_spec k a) as [Ha|Ha]; subst; simpl; try congruence;
    repeat first [rewrite Z.eqb_refl | rewrite (proj2 (Z.eqb_neq _ _)) by congruence]; done.
Qed.

Lemma save_delete_ne a b r t :
  a <> b -> save_row a r (delete_row b t) = delete_row b (save_row a r t).
Proof.
  intros Hne. unfold save_row, delete_row; simpl. f_equal.
  induction (rows t) as [|[k v] l IH]; simpl; [done|].
  destruct (Z.eqb_spec k b) as [Hb|Hb], (Z.eqb_spec k a) as [Ha|Ha]; subst; simpl; try congruence;
    repeat first [rewrite Z.eqb_refl | rewrite (proj2 (Z.eqb_neq _ _)) by congruence]; simpl;
    by rewrite ?IH.
Qed.

Lemma delete_delete a b t : delete_row a (delete_row b t) = delete_row b (delete_row a t).
Proof.
  unfold delete_row; simpl. f_equal.
  induction (rows t) as [|[k v] l IH]; simpl; [done|].
  destruct (k =? b) eqn:Eb, (k =? a) eqn:Ea; simpl; rewrite ?Eb, ?Ea; simpl; by rewrite ?IH.
Qed.

(** A row that exists has an id below the sequence. *)
Lemma get_row_lt_next id r t :
  table_wf t = true -> get_row id t = Some r -> 0 < id < next_id t.
Proof.
  intros Hwf Hget. apply (table_wf_key t); [done|].
  rewrite get_row_spec in Hget. unfold to_map in Hget.
  apply elem_of_list_to_map_2 in Hget. by apply (list_elem_of_fmap_2 fst _ (id, r)).
Qed.

Lemma get_delete_rows_where p id t :
  table_wf t = true ->
  get_row id (delete_rows_where p t) =
    match get_row id t with Some v => if p v then None else Some v | None => None end.
Proof.
  intros Hwf. rewrite !get_row_spec, delete_rows_where_spec by done.
  destruct (to_map t !! id) as [v|] eqn:E; [destruct (p v) eqn:Hp|].
  - apply map_lookup_filter_None. right. intros x Hx. simpl. congruence.
  - by apply map_lookup_filter_Some.
  - apply map_lookup_filter_None. by left.
Qed.

(** Deleting the first row of a well-formed table removes only it. *)
Lemma delete_row_head t k r rest :
  table_wf t = true -> rows t = (k, r) :: rest -> rows (delete_row k t) = rest.
Proof.
  intros Hwf Hrows. pose proof (table_wf_NoDup t Hwf) as Hnd. rewrite Hrows in Hnd.
  simpl in Hnd. apply NoDup_cons in Hnd as [Hnin _].
  unfold delete_row; simpl. rewrite Hrows. simpl. rewrite Z.eqb_refl. simpl.
  clear Hrows. induction rest as [|[k' v'] rest IH]; simpl; [done|].
  simpl in Hnin. apply not_elem_of_cons in Hnin as [Hne Hnin].
  rewrite (proj2 (Z.eqb_neq k' k)) by congruence. simpl. by rewrite IH.
Qed.

End Lemmas.

#[export] Hint Resolve create_row_wf save_row_wf delete_row_wf delete_rows_where_wf
  empty_table_wf : movies.

End Table.
