(* ===== verification/Models.v ===== *)
(** * The models of [src/movies/models.py] and the database they form

    [Genre], [Movie] and [Review] are the three Django models, one record
    per model with the model's columns (the foreign keys [genre] and
    [movie] are their [_id] columns).  The database [db] holds one
    [Table.table] per model.

    The writes are the ORM operations the program performs or declares:
    [objects.create] of each model (its integer columns bound as SQLite
    64-bit integers, an [OverflowError] otherwise, and checked against the
    foreign key, an [IntegrityError] otherwise), [save] and [delete] of a review, and the
    [on_delete=CASCADE] deletes of a movie and of a genre.  [db_wf] is the
    referential-integrity invariant: every table well formed, every movie's
    genre and every review's movie present. *)

From Stdlib Require Import ZArith List String Lia.
From stdpp Require Import base list gmap.
From S2P Require Import Prelude Table.
Import ListNotations.
Import Table.
Open Scope Z_scope.

Module Models.

(** [class Genre(models.Model)]. *)
Record Genre := mkGenre { name : text }.

(** [class Movie(models.Model)]. *)
Record Movie := mkMovie {
  title : text;
  audience : Z;
  poster_url : text;
  description : text;
  genre_id : Z
}.

(** [class Review(models.Model)]. *)
Record Review := mkReview { content : text; score : Z; movie_id : Z }.

(** The database: one table per model. *)
Record db := mkDB {
  genres : table Genre;
  movies : table Movie;
  reviews : table Review
}.

#[export] Instance Genre_eq_dec : EqDecision Genre.
Proof. solve_decision. Defined.
#[export] Instance Movie_eq_dec : EqDecision Movie.
Proof. solve_decision. Defined.
#[export] Instance Review_eq_dec : EqDecision Review.
Proof. solve_decision. Defined.

(** The range of an SQLite [INTEGER].  Python's [sqlite3] binds an [int]
    parameter as a signed 64-bit integer and raises [OverflowError] for
    any other; Django does not catch it. *)
Definition SQLITE_MIN : Z := - 2 ^ 63.
Definition SQLITE_MAX : Z := 2 ^ 63 - 1.

Definition sqlite_int (z : Z) : bool := (SQLITE_MIN <=? z) && (z <=? SQLITE_MAX).

(** The database errors a write can meet: a parameter out of the
    [INTEGER] range, which fails before the statement runs, and a violated
    foreign key.  Either way nothing is written. *)
Inductive db_error := OverflowError | IntegrityError.

Definition empty_db : db := mkDB empty_table empty_table empty_table.

Definition is_some {A} (o : option A) : bool := match o with Some _ => true | None => false end.

(** ** ORM writes *)

(** [Genre.objects.create(name=...)]. *)
Definition genre_create (g : Genre) (d : db) : Z * db :=
  let '(id, gs) := create_row g (genres d) in (id, mkDB gs (movies d) (reviews d)).

(** [Movie.objects.create(..., genre_id=...)]: the foreign key is checked. *)
Definition movie_create (m : Movie) (d : db) : result (Z * db) db_error :=
  if negb (sqlite_int (audience m)) then Err OverflowError
  else if is_some (get_row (genre_id m) (genres d)) then
    let '(id, ms) := create_row m (movies d) in Ok (id, mkDB (genres d) ms (reviews d))
  else Err IntegrityError.

(** [Review.objects.create(content=..., score=..., movie_id=...)]. *)
Definition review_create (r : Review) (d : db) : result (Z * db) db_error :=
  if negb (sqlite_int (score r)) then Err OverflowError
  else if is_some (get_row (movie_id r) (movies d)) then
    let '(id, rs) := create_row r (reviews d) in Ok (id, mkDB (genres d) (movies d) rs)
  else Err IntegrityError.

(** [review.save()] of a fetched review: an [UPDATE] of all its columns. *)
Definition review_save (id : Z) (r : Review) (d : db) : result db db_error :=
  if negb (sqlite_int (score r)) then Err OverflowError
  else if is_some (get_row (movie_id r) (movies d)) then
    Ok (mkDB (genres d) (movies d) (save_row id r (reviews d)))
  else Err IntegrityError.

(** [review.delete()]: no model refers to a review. *)
Definition review_delete (id : Z) (d : db) : db :=
  mkDB (genres d) (movies d) (delete_row id (reviews d)).

(** [movie.delete()]: [Review.movie] cascades. *)
Definition movie_delete (id : Z) (d : db) : db :=
  mkDB (genres d) (delete_row id (movies d))
       (delete_rows_where (fun r => movie_id r =? id) (reviews d)).

(** The reviews a genre's deletion reaches through [Review.movie.genre]. *)
Definition review_of_genre (d : db) (g : Z) (r : Review) : bool :=
  match get_row (movie_id r) (movies d) with
  | Some m => genre_id m =? g
  | None => false
  end.

(** [genre.delete()]: [Movie.genre] cascades, and from each movie
    [Review.movie] cascades. *)
Definition genre_delete (id : Z) (d : db) : db :=
  mkDB (delete_row id (genres d))
       (delete_rows_where (fun m => genre_id m =? id) (movies d))
       (delete_rows_where (review_of_genre d id) (reviews d)).

(** ** A sample catalogue

    One genre and three movies, no review: the rows a fixture of the
    catalogue loads before the API is used. *)

Definition drama : Genre := mkGenre (txt "Drama").

Definition sample_movie (t : string) : Movie :=
  mkMovie (txt t) 1000 (txt "https://example.org/poster.jpg") (txt "A film.") 1.

Definition sample_db : db :=
  mkDB (mk_table [(1, drama)] 2)
       (mk_table [(1, sample_movie "Alpha"); (2, sample_movie "Beta"); (3, sample_movie "Gamma")] 4)
       (mk_table [] 1).

(** ** Referential integrity *)

(** Every row of [child] refers through [ref] to a row of [parent]. *)
Definition fk_ok {A B} (ref : A -> Z) (child : table A) (parent : table B) : bool :=
  forallb (fun '(_, a) => is_some (get_row (ref a) parent)) (rows child).
Arguments fk_ok : simpl never.

Definition db_wf (d : db) : bool :=
  table_wf (genres d) && table_wf (movies d) && table_wf (reviews d)
  && fk_ok genre_id (movies d) (genres d) && fk_ok movie_id (reviews d) (movies d).

(** ** Lemmas on foreign keys *)

Section FK.
Context {A B : Type} (ref : A -> Z).
Implicit Types (c : table A) (p : table B).

Lemma is_some_iff {X} (o : option X) : is_some o = true <-> is_Some o.
Proof. destruct o; simpl; [split; eauto|]. split; [done|]. intros [? ?]; done. Qed.

Lemma fk_ok_spec c p :
  fk_ok ref c p = true <-> forall k a, In (k, a) (rows c) -> is_Some (get_row (ref a) p).
Proof.
  unfold fk_ok. rewrite forallb_forall. split.
  - intros H k a Hin. apply is_some_iff, (H (k, a) Hin).
  - intros H [k a] Hin. apply is_some_iff, (H k a Hin).
Qed.

Lemma fk_ok_child_filter c p (q : Z * A -> bool) :
  fk_ok ref c p = true -> fk_ok ref (mk_table (List.filter q (rows c)) (next_id c)) p = true.
Proof.
  rewrite !fk_ok_spec. intros H k a Hin. apply filter_In in Hin as [Hin _]. eauto.
Qed.

Lemma fk_ok_child_create c p x :
  fk_ok ref c p = true -> is_Some (get_row (ref x) p) -> fk_ok ref (create_row x c).2 p = true.
Proof.
  rewrite !fk_ok_spec. intros H Hx k a Hin. simpl in Hin.
  apply in_app_or in Hin as [Hin|[[= <- <-]|[]]]; eauto.
Qed.

Lemma fk_ok_child_save c p id x :
  fk_ok ref c p = true -> is_Some (get_row (ref x) p) -> fk_ok ref (save_row id x c) p = true.
Proof.
  rewrite !fk_ok_spec. intros H Hx k a Hin. simpl in Hin.
  apply in_map_iff in Hin as [[k' a'] [Heq Hin]].
  destruct (k' =? id); injection Heq as <- <-; eauto.
Qed.

(** Rows of the parent that stay present keep the key valid. *)
Lemma fk_ok_parent_mono c p p' :
  (forall id, is_Some (get_row id p) -> is_Some (get_row id p')) ->
  fk_ok ref c p = true -> fk_ok ref c p' = true.
Proof. rewrite !fk_ok_spec. eauto. Qed.

Lemma fk_ok_parent_create c p x :
  table_wf p = true -> fk_ok ref c p = true -> fk_ok ref c (create_row x p).2 = true.
Proof.
  intros Hwf. apply fk_ok_parent_mono. intros id [v Hv].
  rewrite get_create_ne; [eauto|done|]. pose proof (get_row_lt_next id v p Hwf Hv). lia.
Qed.

End FK.

#[export] Hint Resolve fk_ok_child_filter fk_ok_child_create fk_ok_child_save
  fk_ok_parent_create : movies.

Lemma in_delete_rows_where {A} (p : A -> bool) (t : table A) k a :
  In (k, a) (rows (delete_rows_where p t)) -> In (k, a) (rows t) /\ p a = false.
Proof. simpl. intros [Hin Hp]%filter_In. split; [done|]. by destruct (p a). Qed.

(** ** Every ORM write preserves referential integrity *)

Ltac db_wf_split :=
  unfold db_wf in *; cbn [genres movies reviews fst snd] in *;
  rewrite ?andb_true_iff in *; destruct_and?; split_and?.

Lemma genre_create_wf g d : db_wf d = true -> db_wf (genre_create g d).2 = true.
Proof.
  unfold genre_create. destruct (create_row g (genres d)) as [id gs] eqn:E. intros Hwf.
  db_wf_split; try done; replace gs with (create_row g (genres d)).2 by (by rewrite E);
    auto with movies.
Qed.

Lemma movie_create_wf m d id d' :
  db_wf d = true -> movie_create m d = Ok (id, d') -> db_wf d' = true.
Proof.
  unfold movie_create. destruct (negb _); [done|]. destruct (is_some _) eqn:Hg; [|done].
  destruct (create_row m (movies d)) as [id' ms] eqn:E. intros Hwf [= <- <-].
  apply is_some_iff in Hg. replace ms with (create_row m (movies d)).2 by (by rewrite E).
  db_wf_split; auto with movies.
Qed.

Lemma review_create_wf r d id d' :
  db_wf d = true -> review_create r d = Ok (id, d') -> db_wf d' = true.
Proof.
  unfold review_create. destruct (negb _); [done|]. destruct (is_some _) eqn:Hm; [|done].
  destruct (create_row r (reviews d)) as [id' rs] eqn:E. intros Hwf [= <- <-].
  apply is_some_iff in Hm. replace rs with (create_row r (reviews d)).2 by (by rewrite E).
  db_wf_split; auto with movies.
Qed.

Lemma review_save_wf id r d d' :
  db_wf d = true -> review_save id r d = Ok d' -> db_wf d' = true.
Proof.
  unfold review_save. destruct (negb _); [done|]. destruct (is_some _) eqn:Hm; [|done]. intros Hwf [= <-].
  apply is_some_iff in Hm. db_wf_split; auto with movies.
Qed.

Lemma review_delete_wf id d : db_wf d = true -> db_wf (review_delete id d) = true.
Proof. unfold review_delete. intros Hwf. db_wf_split; auto with movies. by apply fk_ok_child_filter. Qed.

Lemma movie_delete_wf id d : db_wf d = true -> db_wf (movie_delete id d) = true.
Proof.
  unfold movie_delete. intros Hwf. db_wf_split; auto with movies.
  - by apply fk_ok_child_filter.
  - apply fk_ok_spec. intros k r [Hin Hp]%in_delete_rows_where.
    apply Z.eqb_neq in Hp. rewrite get_delete_ne by congruence.
    by eapply fk_ok_spec.
Qed.

Lemma genre_delete_wf id d : db_wf d = true -> db_wf (genre_delete id d) = true.
Proof.
  unfold genre_delete. intros Hwf. db_wf_split; auto with movies.
  - apply fk_ok_spec. intros k m [Hin Hp]%in_delete_rows_where.
    apply Z.eqb_neq in Hp. rewrite get_delete_ne by congruence.
    by eapply fk_ok_spec.
  - apply fk_ok_spec. intros k r [Hin Hp]%in_delete_rows_where.
    pose proof (proj1 (fk_ok_spec _ _ _) H0 k r Hin) as [m Hm].
    unfold review_of_genre in Hp. rewrite Hm in Hp.
    rewrite get_delete_rows_where, Hm, Hp by done. eauto.
Qed.


(** ** The database as a state machine *)

(** One write of the ORM, as the program can issue it. *)
Inductive orm_step : db -> db -> Prop :=
  | step_genre_create g d : orm_step d (genre_create g d).2
  | step_movie_create m d id d' : movie_create m d = Ok (id, d') -> orm_step d d'
  | step_review_create r d id d' : review_create r d = Ok (id, d') -> orm_step d d'
  | step_review_save id r d d' : review_save id r d = Ok d' -> orm_step d d'
  | step_review_delete id d : orm_step d (review_delete id d)
  | step_movie_delete id d : orm_step d (movie_delete id d)
  | step_genre_delete id d : orm_step d (genre_delete id d).

(** The databases the ORM can build from an empty schema. *)
Definition reachable (d : db) : Prop := rtc orm_step empty_db d.

Lemma orm_step_wf d d' : orm_step d d' -> db_wf d = true -> db_wf d' = true.
Proof.
  destruct 1; intros Hwf;
    eauto using genre_create_wf, movie_create_wf, review_create_wf, review_save_wf,
      review_delete_wf, movie_delete_wf, genre_delete_wf.
Qed.

Lemma in_delete_rows_where_iff {A} (p : A -> bool) (t : table A) k a :
  In (k, a) (rows (delete_rows_where p t)) <-> In (k, a) (rows t) /\ p a = false.
Proof. simpl. rewrite filter_In. destruct (p a); simpl; intuition congruence. Qed.

Lemma get_delete_row_in {A} id (t : table A) k a :
  In (k, a) (rows (delete_row id t)) <-> In (k, a) (rows t) /\ k <> id.
Proof. simpl. rewrite filter_In. destruct (Z.eqb_spec k id); simpl; intuition congruence. Qed.

(** ** The outcome of each write *)

Lemma review_create_ok r d :
  sqlite_int (score r) = true -> is_Some (get_row (movie_id r) (movies d)) ->
  review_create r d = Ok (next_id (reviews d), mkDB (genres d) (movies d) (create_row r (reviews d)).2).
Proof. intros Hs Hm%is_some_iff. unfold review_create. by rewrite Hs, Hm. Qed.

Lemma review_create_err r d :
  get_row (movie_id r) (movies d) = None -> exists e, review_create r d = Err e.
Proof. intros Hm. unfold review_create. rewrite Hm. case_match; eauto. Qed.

Lemma review_create_overflow r d :
  sqlite_int (score r) = false -> review_create r d = Err OverflowError.
Proof. intros Hs. unfold review_create. by rewrite Hs. Qed.

Lemma review_save_overflow id r d :
  sqlite_int (score r) = false -> review_save id r d = Err OverflowError.
Proof. intros Hs. unfold review_save. by rewrite Hs. Qed.

Lemma review_save_ok id r d :
  sqlite_int (score r) = true -> is_Some (get_row (movie_id r) (movies d)) ->
  review_save id r d = Ok (mkDB (genres d) (movies d) (save_row id r (reviews d))).
Proof. intros Hs Hm%is_some_iff. unfold review_save. by rewrite Hs, Hm. Qed.

(** A review of a well-formed database refers to a movie that exists. *)
Lemma db_wf_review_movie d id r :
  db_wf d = true -> get_row id (reviews d) = Some r -> is_Some (get_row (movie_id r) (movies d)).
Proof.
  intros Hwf Hr. unfold db_wf in Hwf. rewrite !andb_true_iff in Hwf. destruct_and!.
  eapply (proj1 (fk_ok_spec _ _ _)); [done|].
  rewrite get_row_spec in Hr. unfold to_map in Hr. apply elem_of_list_to_map_2 in Hr.
  by apply list_elem_of_In.
Qed.

Lemma db_wf_tables d :
  db_wf d = true -> table_wf (genres d) = true /\ table_wf (movies d) = true /\ table_wf (reviews d) = true.
Proof. unfold db_wf. rewrite !andb_true_iff. tauto. Qed.

(** ** Integrity and cascades *)

(** C9 [invariant]: every database the ORM writes can produce from an empty
    schema satisfies referential integrity: the tables are well formed,
    every movie's genre exists and every review's movie exists. *)
Theorem reachable_db_wf d : reachable d -> db_wf d = true.
Proof.
  unfold reachable. intros H.
  assert (Hgen : forall x y, rtc orm_step x y -> db_wf x = true -> db_wf y = true).
  { induction 1; eauto using orm_step_wf. }
  by apply (Hgen empty_db).
Qed.

(** C10 [safety]: deleting a genre removes it, removes exactly the movies of
    that genre and exactly the reviews of those movies, and leaves a
    database with referential integrity. *)
Theorem genre_delete_cascade d g :
  db_wf d = true ->
  db_wf (genre_delete g d) = true /\
  get_row g (genres (genre_delete g d)) = None /\
  (forall k m, In (k, m) (rows (movies (genre_delete g d))) <->
               In (k, m) (rows (movies d)) /\ genre_id m <> g) /\
  (forall k r, In (k, r) (rows (reviews (genre_delete g d))) <->
               In (k, r) (rows (reviews d)) /\
               forall m, get_row (movie_id r) (movies d) = Some m -> genre_id m <> g).
Proof.
  intros Hwf. split_and!; [by apply genre_delete_wf|apply get_delete_eq| |].
  - intros k m. unfold genre_delete; cbn [movies]. rewrite (in_delete_rows_where_iff _ (movies d)).
    by rewrite Z.eqb_neq.
  - intros k r. unfold genre_delete; cbn [reviews]. rewrite (in_delete_rows_where_iff _ (reviews d)).
    unfold review_of_genre. destruct (get_row (movie_id r) (movies d)) as [m|].
    + rewrite Z.eqb_neq. naive_solver.
    + naive_solver.
Qed.

(** C11 [safety]: deleting a movie removes it and exactly its reviews, and
    leaves a database with referential integrity. *)
Theorem movie_delete_cascade d mid :
  db_wf d = true ->
  db_wf (movie_delete mid d) = true /\
  get_row mid (movies (movie_delete mid d)) = None /\
  (forall k r, In (k, r) (rows (reviews (movie_delete mid d))) <->
               In (k, r) (rows (reviews d)) /\ movie_id r <> mid).
Proof.
  intros Hwf. split_and!; [by apply movie_delete_wf|apply get_delete_eq|].
  intros k r. unfold movie_delete; cbn [reviews]. rewrite (in_delete_rows_where_iff _ (reviews d)).
  by rewrite Z.eqb_neq.
Qed.

(** ** Witnesses *)

Lemma reachable_db_wf_witness : reachable sample_db /\ db_wf sample_db = true.
Proof.
  assert (Hr : reachable sample_db).
  { unfold reachable.
    eapply rtc_l; [apply (step_genre_create drama)|].
    eapply rtc_l; [eapply (step_movie_create (sample_movie "Alpha")); reflexivity|].
    eapply rtc_l; [eapply (step_movie_create (sample_movie "Beta")); reflexivity|].
    eapply rtc_l; [eapply (step_movie_create (sample_movie "Gamma")); reflexivity|].
    apply rtc_refl. }
  split; [exact Hr|apply (reachable_db_wf sample_db Hr)].
Defined.

Lemma genre_delete_cascade_witness :
  db_wf sample_db = true /\ get_row 1 (genres (genre_delete 1 sample_db)) = None.
Proof.
  assert (Hwf : db_wf sample_db = true) by (vm_compute; reflexivity).
  split; [exact Hwf|]. apply (genre_delete_cascade sample_db 1 Hwf).
Defined.

Lemma movie_delete_cascade_witness :
  db_wf sample_db = true /\ db_wf (movie_delete 2 sample_db) = true.
Proof.
  assert (Hwf : db_wf sample_db = true) by (vm_compute; reflexivity).
  split; [exact Hwf|]. apply (movie_delete_cascade sample_db 2 Hwf).
Defined.

End Models.
