(* ===== verification/Fields.v ===== *)
(** * Field validation of [ReviewSerializer]

    [ReviewSerializer] is a [ModelSerializer] over [fields = ('content',
    'score')]; DRF builds its two fields from the model columns:
    - [content = models.CharField(max_length=100)] becomes a DRF
      [CharField(max_length=100)] (required, not nullable, blank not allowed,
      whitespace trimmed, null characters and lone surrogates prohibited);
    - [score = models.IntegerField()] becomes a DRF [IntegerField] with
      no [min_value] or [max_value]: [ModelSerializer] takes them from the
      backend's [integer_field_range], which Django's SQLite backend
      leaves unbounded ([None, None]) before Django 5.0.
    [char_field_run_validation] and [integer_field_run_validation] are
    DRF's [run_validation] of those fields on the member the request body
    has for the field ([None] when it is missing); Python's [int()] on text
    is [py_int], and [re_decimal_sub] is shown to remove exactly the
    suffix its regex matches ([decimal_suffix], [re_decimal_sub_suffix]).
    Both fields read a
    JSON float through [str] ([Prelude.float_repr]): [float_integer_field]
    states which floats an [IntegerField] takes and as what integer. *)

From Stdlib Require Import ZArith List Lia.
From stdpp Require Import base list.
From S2P Require Import Prelude Json.
Import ListNotations.
Open Scope Z_scope.

Module Fields.

(** The error codes a field reports, with DRF's parameters; the last two
    are those of a serializer, itself a field, on a body that is not a
    dictionary. *)
Inductive field_error :=
  | Required
  | Null
  | Blank
  | InvalidString
  | MaxLength (n : Z)
  | NullCharacters
  | SurrogateCharacters (code_point : Z)
  | InvalidInteger
  | MaxStringLength
  | InvalidData (datatype : text)
  | NoData.

#[export] Instance field_error_eq_dec : EqDecision field_error.
Proof. solve_decision. Defined.

(** DRF's default message of each error. *)
Definition error_message (e : field_error) : text :=
  match e with
  | Required => txt "This field is required."
  | Null => txt "This field may not be null."
  | Blank => txt "This field may not be blank."
  | InvalidString => txt "Not a valid string."
  | MaxLength n =>
      txt "Ensure this field has no more than " ++ py_str_int n ++ txt " characters."
  | NullCharacters => txt "Null characters are not allowed."
  | SurrogateCharacters c =>
      txt "Surrogate characters are not allowed: U+" ++ py_format_X c ++ txt "."
  | InvalidInteger => txt "A valid integer is required."
  | MaxStringLength => txt "String value too large."
  | InvalidData t => txt "Invalid data. Expected a dictionary, but got " ++ t ++ txt "."
  | NoData => txt "No data provided"
  end.

(** ** CharField *)

(** [0xD800 <= ord(ch) <= 0xDFFF]: a lone surrogate, which [json.loads]
    lets through from a [\ud800] escape. *)
Definition is_surrogate (c : Z) : bool := (55296 <=? c) && (c <=? 57343).

Definition no_surrogates (v : text) : Prop := Forall (fun c => is_surrogate c = false) v.

(** [run_validators]: every validator runs, every failure is reported. *)
Definition char_validators (max_length : Z) (v : text) : list field_error :=
  (if max_length <? Z.of_nat (length v) then [MaxLength max_length] else [])
  ++ (if existsb (fun c => c =? 0) v then [NullCharacters] else [])
  ++ (match find is_surrogate v with Some c => [SurrogateCharacters c] | None => [] end).

Definition validators_result {A} (v : A) (errs : list field_error) : result A (list field_error) :=
  match errs with [] => Ok v | _ => Err errs end.

(** [CharField.run_validation] with [allow_blank=False],
    [trim_whitespace=True], [allow_null=False]: a string or a number is
    converted by [str], then stripped; the blank test comes first. *)
Definition char_field_run_validation (max_length : Z) (data : option json)
    : result text (list field_error) :=
  match data with
  | None => Err [Required]
  | Some JNull => Err [Null]
  | Some (JStr s) =>
      match strip s with
      | [] => Err [Blank]
      | v => validators_result v (char_validators max_length v)
      end
  | Some (JInt z) => let v := strip (py_str_int z) in validators_result v (char_validators max_length v)
  | Some (JFloat neg m e) =>
      let v := strip (float_repr neg m e) in validators_result v (char_validators max_length v)
  | Some (JBool _) | Some (JArr _) | Some (JObj _) => Err [InvalidString]
  end.

(** ** IntegerField *)

Definition is_digit (c : Z) : bool := (48 <=? c) && (c <=? 57).

(** The digits of a Python integer literal, with single underscores
    allowed between digits; [after_digit] says the last character was a
    digit. *)
Fixpoint py_digits (s : text) (acc : Z) (after_digit : bool) : option Z :=
  match s with
  | [] => if after_digit then Some acc else None
  | c :: r =>
      if is_digit c then py_digits r (acc * 10 + (c - 48)) true
      else if (c =? 95) && after_digit then py_digits r acc false
      else None
  end.

(** Python's [int(s)] for a [str] in base 10. *)
Definition py_int (s : text) : option Z :=
  match strip s with
  | [] => None
  | c :: r =>
      if c =? 45 then option_map Z.opp (py_digits r 0 false)
      else if c =? 43 then py_digits r 0 false
      else py_digits (c :: r) 0 false
  end.

Fixpoint drop_zeros (s : text) : text :=
  match s with
  | [] => []
  | c :: r => if c =? 48 then drop_zeros r else s
  end.

(** [re.compile(r'\.0*\s*$').sub('', s)]: a final dot, zeros and
    whitespace are removed. *)
Definition re_decimal_sub (s : text) : text :=
  match drop_zeros (lstrip (rev s)) with
  | c :: r => if c =? 46 then rev r else s
  | [] => s
  end.

(** [IntegerField.MAX_STRING_LENGTH]. *)
Definition MAX_STRING_LENGTH : Z := 1000.

(** [IntegerField.to_internal_value]: [int(re_decimal.sub('', str(data)))];
    [str] of a boolean, a list or a dict is never an integer literal. *)
Definition integer_to_internal_value (data : json) : result Z field_error :=
  match data with
  | JStr s =>
      if MAX_STRING_LENGTH <? Z.of_nat (length s) then Err MaxStringLength
      else match py_int (re_decimal_sub s) with Some z => Ok z | None => Err InvalidInteger end
  | JInt z =>
      match py_int (re_decimal_sub (py_str_int z)) with Some z' => Ok z' | None => Err InvalidInteger end
  | JFloat neg m e =>
      match py_int (re_decimal_sub (float_repr neg m e)) with Some z' => Ok z' | None => Err InvalidInteger end
  | _ => Err InvalidInteger
  end.

(** [IntegerField.run_validation]: [required], [allow_null=False], then
    [to_internal_value]; the field has no validator (see [score_field]). *)
Definition integer_field_run_validation (data : option json) : result Z (list field_error) :=
  match data with
  | None => Err [Required]
  | Some JNull => Err [Null]
  | Some v =>
      match integer_to_internal_value v with
      | Ok z => Ok z
      | Err e => Err [e]
      end
  end.

(** ** The two fields of [ReviewSerializer] *)

(** [Review.content]: [CharField(max_length=100)]. *)
Definition content_field (data : option json) : result text (list field_error) :=
  char_field_run_validation 100 data.

(** [Review.score]: [IntegerField()].  [ModelSerializer] copies the
    range validators of the model field, and Django's SQLite backend gives
    an [IntegerField] none ([integer_field_range] is [(None, None)]), so
    the DRF field has neither [min_value] nor [max_value]. *)
Definition score_field (data : option json) : result Z (list field_error) :=
  integer_field_run_validation data.

(** ** Lemmas on Python's integer literals *)

Lemma py_isspace_digit c : 45 <= c <= 57 -> py_isspace c = false.
Proof.
  intros H. unfold py_isspace.
  rewrite (proj2 (Z.leb_gt c 13)), (proj2 (Z.leb_gt c 32)), (proj2 (Z.leb_gt 8192 c))
    by lia.
  rewrite !(proj2 (Z.eqb_neq c _)) by lia. by rewrite !andb_false_r.
Qed.

Lemma py_digits_true l acc :
  Forall (fun c => 48 <= c <= 57) l -> py_digits l acc true = Some (digits_value acc l).
Proof.
  revert acc; induction l as [|c l IH]; intros acc Hl; [done|].
  apply Forall_cons in Hl as [Hc Hl]. cbv beta in Hc. simpl.
  replace (is_digit c) with true by (unfold is_digit; symmetry; apply andb_true_iff; rewrite !Z.leb_le; lia).
  by apply IH.
Qed.

Lemma py_digits_false c l acc :
  Forall (fun c => 48 <= c <= 57) (c :: l) ->
  py_digits (c :: l) acc false = Some (digits_value acc (c :: l)).
Proof.
  intros Hl. pose proof (Forall_inv Hl) as Hc. cbv beta in Hc. simpl.
  replace (is_digit c) with true by (unfold is_digit; symmetry; apply andb_true_iff; rewrite !Z.leb_le; lia).
  apply py_digits_true. by apply Forall_inv_tail in Hl.
Qed.

Lemma in_lstrip x l : In x (lstrip l) -> In x l.
Proof. induction l as [|c l IH]; simpl; [done|]. destruct (py_isspace c); simpl; tauto. Qed.

Lemma in_drop_zeros x l : In x (drop_zeros l) -> In x l.
Proof. induction l as [|c l IH]; simpl; [done|]. destruct (c =? 48); simpl; tauto. Qed.

Lemma re_decimal_sub_nodot s : ~ In 46 s -> re_decimal_sub s = s.
Proof.
  intros Hs. unfold re_decimal_sub.
  destruct (drop_zeros (lstrip (rev s))) as [|c r] eqn:E; [done|].
  destruct (Z.eqb_spec c 46) as [->|]; [|done].
  exfalso. apply Hs, in_rev, in_lstrip, in_drop_zeros. rewrite E. by left.
Qed.

Lemma drop_zeros_zeros zs l : Forall (fun c => c = 48) zs -> drop_zeros (zs ++ l) = drop_zeros l.
Proof. induction 1 as [|c zs -> _ IH]; simpl; done. Qed.

Lemma drop_zeros_split l : exists zs, l = zs ++ drop_zeros l /\ Forall (fun c => c = 48) zs.
Proof.
  induction l as [|c l [zs [Hl Hzs]]]; simpl; [by exists []|].
  destruct (Z.eqb_spec c 48) as [->|].
  - exists (48 :: zs). split; [simpl; by f_equal|by constructor].
  - by exists [].
Qed.

(** The form [re_decimal] removes: a dot, zeros, whitespace, up to the
    end of the string. *)
Definition decimal_suffix (s p zs ws : text) : Prop :=
  s = p ++ [46] ++ zs ++ ws /\ Forall (fun c => c = 48) zs /\ Forall (fun c => py_isspace c = true) ws.

Lemma re_decimal_sub_suffix s p zs ws : decimal_suffix s p zs ws -> re_decimal_sub s = p.
Proof.
  intros (-> & Hzs & Hws). unfold re_decimal_sub.
  rewrite !rev_app_distr, <- !app_assoc, lstrip_spaces by by apply Forall_rev.
  change (rev [46]) with [46].
  assert (Hl : lstrip (rev zs ++ [46] ++ rev p) = rev zs ++ [46] ++ rev p).
  { destruct (rev zs) as [|c r] eqn:E; [by apply lstrip_nospace_head|].
    apply lstrip_nospace_head. apply Forall_rev in Hzs. rewrite E in Hzs.
    apply Forall_cons in Hzs as [-> _]. done. }
  rewrite Hl, drop_zeros_zeros by by apply Forall_rev. simpl. by rewrite rev_involutive.
Qed.

(** The characters of [str(z)]. *)
Lemma py_str_int_chars z : Forall (fun c => c = 45 \/ 48 <= c <= 57) (py_str_int z).
Proof.
  unfold py_str_int. destruct (digits_fuel_spec _ _ (py_str_int_fuel z)) as (_ & Hd & _).
  apply Forall_app; split; [destruct (z <? 0); repeat constructor; lia|].
  eapply Forall_impl; [exact Hd|]. simpl; lia.
Qed.

Lemma py_str_int_nonempty z : py_str_int z <> [].
Proof.
  unfold py_str_int. destruct (digits_fuel_spec _ _ (py_str_int_fuel z)) as (Hne & _ & _).
  by intros [_ ?]%app_eq_nil.
Qed.

(** The characters of [repr] of a float: digits, signs, a point and [e]. *)
Definition float_char (c : Z) : Prop := c = 43 \/ c = 45 \/ c = 46 \/ c = 101 \/ 48 <= c <= 57.

Lemma float_char_nospace c : float_char c -> py_isspace c = false.
Proof. intros [->|[->|[->|[->|Hc]]]]; [done|done|done|done|apply py_isspace_digit; lia]. Qed.

Lemma float_repr_chars neg m e :
  float_repr neg m e <> [] /\ Forall float_char (float_repr neg m e).
Proof.
  unfold float_repr. destruct (if Z.of_N m =? 0 then _ else _) as [m' e'].
  pose proof (py_str_int_nonempty m') as Hne.
  assert (Hd : Forall float_char (py_str_int m'))
    by (eapply Forall_impl; [apply py_str_int_chars|]; unfold float_char; intros; lia).
  assert (Hz : forall k, Forall float_char (zeros k))
    by (intros k; unfold zeros; induction (Z.to_nat k); constructor; [unfold float_char; lia|done]).
  assert (Hx : forall x, Forall float_char (exp_text x)).
  { intros x. unfold exp_text. apply Forall_app; split; [case_match; repeat constructor; unfold float_char; lia|].
    apply Forall_app; split; [case_match; repeat constructor; unfold float_char; lia|].
    eapply Forall_impl; [apply py_str_int_chars|]. unfold float_char; intros; lia. }
  assert (Hsg : Forall float_char (if neg then [45] else []))
    by (destruct neg; repeat constructor; unfold float_char; lia).
  assert (Hpt : forall c, c = 46 \/ c = 48 \/ c = 101 -> float_char c) by (unfold float_char; lia).
  generalize (Z.of_nat (length (py_str_int m'))) as n. intros n.
  destruct (py_str_int m') as [|d r] eqn:E; [done|]. clear Hne.
  apply Forall_cons in Hd as [Hd0 Hr].
  split.
  { intros [_ H]%app_eq_nil. apply (f_equal (@length Z)) in H. revert H.
    destruct r; simpl; repeat case_match; simpl; rewrite ?length_app; simpl; lia. }
  apply Forall_app; split; [done|].
  destruct r as [|d1 r]; [|apply Forall_cons in Hr as [Hd1 Hr]];
    repeat case_match; simplify_eq;
    repeat first [apply Hx | apply Hz | apply Forall_app; split | apply Forall_cons; split
                 | apply Forall_nil];
    auto using Forall_take, Forall_drop.
Qed.

(** [int()] of a sign and a run of ASCII digits. *)
Lemma py_int_digits (neg : bool) l :
  l <> [] -> Forall (fun c => 48 <= c <= 57) l ->
  py_int ((if neg then [45] else []) ++ l) = Some (if neg then - digits_value 0 l else digits_value 0 l).
Proof.
  intros Hne Hd. unfold py_int. rewrite strip_nospace.
  2: { apply Forall_app; split; [destruct neg; repeat constructor|].
       eapply Forall_impl; [exact Hd|]. simpl; intros; apply py_isspace_digit; lia. }
  destruct l as [|c r]; [done|]. pose proof (Forall_inv Hd) as Hc. cbv beta in Hc.
  destruct neg; cbn [app].
  - by rewrite Z.eqb_refl, py_digits_false.
  - destruct (Z.eqb_spec c 45); [lia|]. destruct (Z.eqb_spec c 43); [lia|]. by rewrite py_digits_false.
Qed.

(** [int(str(z)) == z]. *)
Lemma py_int_str z : py_int (py_str_int z) = Some z.
Proof.
  unfold py_str_int. destruct (digits_fuel_spec _ _ (py_str_int_fuel z)) as (Hne & Hd & Hv).
  rewrite (py_int_digits (z <? 0)), Hv by done. destruct (Z.ltb_spec z 0); f_equal; lia.
Qed.

(** The digits of [str(z)] for [z > 0]: their value, their count and the
    last one. *)
Lemma py_str_int_pos z : 0 < z ->
  py_str_int z <> [] /\ Forall (fun c => 48 <= c <= 57) (py_str_int z) /\
  digits_value 0 (py_str_int z) = z /\
  10 ^ (Z.of_nat (length (py_str_int z)) - 1) <= z < 10 ^ Z.of_nat (length (py_str_int z)) /\
  exists pre, py_str_int z = pre ++ [48 + z mod 10].
Proof.
  intros Hz. pose proof (py_str_int_fuel z) as Hf. cbv zeta in Hf. rewrite Z.abs_eq in Hf by lia.
  unfold py_str_int. rewrite Z.abs_eq by lia. destruct (Z.ltb_spec z 0); [lia|]. cbn [app].
  destruct (digits_fuel_spec _ _ Hf) as (Hne & Hd & Hv).
  pose proof (digits_fuel_bounds (Z.to_nat (Z.log2 z)) z ltac:(lia)) as Hb.
  destruct (digits_fuel_last (Z.to_nat (Z.log2 z)) z ltac:(lia)) as [pre Hpre].
  split_and!; try done; [lia|lia|by eexists].
Qed.

(** ** Characters no integer literal has *)

Lemma py_digits_bad c l acc b :
  In c l -> is_digit c = false -> c <> 95 -> py_digits l acc b = None.
Proof.
  intros Hin Hc H95. revert acc b; induction l as [|c' l IH]; intros acc b; [done|]. simpl.
  destruct Hin as [->|Hin].
  - by rewrite Hc, (proj2 (Z.eqb_neq c 95)).
  - destruct (is_digit c'); [by apply IH|]. destruct ((c' =? 95) && b); [by apply IH|done].
Qed.

(** [int()] fails on a text holding a character that is no digit, sign,
    underscore or whitespace. *)
Lemma py_int_bad c s :
  In c s -> is_digit c = false -> c <> 95 -> c <> 43 -> c <> 45 -> py_isspace c = false ->
  py_int s = None.
Proof.
  intros Hin Hd H95 H43 H45 Hsp. unfold py_int.
  destruct (strip_split s) as (ws1 & ws2 & Hs & H1 & H2).
  assert (Hc : In c (strip s)).
  { rewrite Hs in Hin. apply in_app_or in Hin as [Hin|[Hin|Hin]%in_app_or]; [|done|].
    - apply (proj1 (List.Forall_forall _ _) H1) in Hin. congruence.
    - apply (proj1 (List.Forall_forall _ _) H2) in Hin. congruence. }
  destruct (strip s) as [|c0 r]; [done|].
  assert (Hr : c0 = 45 \/ c0 = 43 -> In c r) by (destruct Hc as [<-|]; [lia|done]).
  destruct (Z.eqb_spec c0 45).
  - rewrite (py_digits_bad c); [done|apply Hr; lia|done|done].
  - destruct (Z.eqb_spec c0 43); apply (py_digits_bad c); auto.
Qed.

(** [re_decimal] leaves a text ending in a character other than a dot, a
    zero or whitespace, and keeps any such character of the text. *)
Lemma re_decimal_sub_last s d :
  d <> 46 -> d <> 48 -> py_isspace d = false -> re_decimal_sub (s ++ [d]) = s ++ [d].
Proof.
  intros H46 H48 Hsp. unfold re_decimal_sub. rewrite rev_unit, lstrip_nospace_head by done.
  simpl. by rewrite (proj2 (Z.eqb_neq d 48)), (proj2 (Z.eqb_neq d 46)).
Qed.

Lemma re_decimal_sub_keep c s :
  In c s -> c <> 46 -> c <> 48 -> py_isspace c = false -> In c (re_decimal_sub s).
Proof.
  intros Hin H46 H48 Hsp. unfold re_decimal_sub.
  destruct (drop_zeros (lstrip (rev s))) as [|c' r] eqn:E; [done|].
  destruct (Z.eqb_spec c' 46) as [->|]; [|done].
  destruct (lstrip_split (rev s)) as [ws [Hws Hsp']].
  destruct (drop_zeros_split (lstrip (rev s))) as [zs [Hzs H0]].
  rewrite E in Hzs. rewrite Hzs in Hws. apply in_rev in Hin. rewrite Hws in Hin. rewrite <- in_rev.
  apply in_app_or in Hin as [Hin|[Hin|[Hin|Hin]]%in_app_or]; [| |congruence|done].
  - apply (proj1 (List.Forall_forall _ _) Hsp') in Hin. congruence.
  - apply (proj1 (List.Forall_forall _ _) H0) in Hin. congruence.
Qed.

(** ** A float in an [IntegerField]

    [IntegerField.to_internal_value] reads a float through its text:
    [int(re_decimal.sub('', str(data)))].  [float_int_value m e] is the
    integer the value [m * 10 ^ e] is, when it is one. *)
Definition float_int_value (m : N) (e : Z) : option Z :=
  if 0 <=? e then Some (Z.of_N m * 10 ^ e)
  else if Z.of_N m mod 10 ^ (- e) =? 0 then Some (Z.of_N m / 10 ^ (- e)) else None.

Lemma float_int_value_shortest m e :
  Z.of_N m <> 0 ->
  let '(m', e') := shortest (Z.of_N m) e in
  float_int_value m e = if 0 <=? e' then Some (m' * 10 ^ e') else None.
Proof.
  intros H0. pose proof (shortest_spec (Z.of_N m) e ltac:(lia)) as Hs. revert Hs.
  destruct (shortest (Z.of_N m) e) as [m' e']. intros (Hp & H10 & He & Hv).
  unfold float_int_value. rewrite Hv. destruct (Z.leb_spec 0 e).
  - rewrite (proj2 (Z.leb_le 0 e')) by lia. rewrite <- Z.mul_assoc, <- Z.pow_add_r by lia.
    do 3 f_equal. lia.
  - destruct (Z.eqb_spec ((m' * 10 ^ (e' - e)) mod 10 ^ (- e)) 0) as [Hm|Hm];
      rewrite pow10_mod in Hm by lia; destruct (Z.leb_spec 0 e'); try lia; [|done].
    f_equal. replace (e' - e) with (e' + - e) by lia.
    rewrite Z.pow_add_r, Z.mul_assoc, Z.div_mul by (try lia; apply Z.pow_nonzero; lia). done.
Qed.

(** The exponent form holds an [e]. *)
Lemma float_exp_in (sg ds : text) x :
  ds <> [] ->
  In 101 (sg ++ match ds with
                | [] => []
                | [d] => d :: [101] ++ exp_text x
                | d :: r => d :: [46] ++ r ++ [101] ++ exp_text x
                end).
Proof.
  intros Hne. apply in_or_app; right.
  destruct ds as [|d [|d' r]]; [done| |]; simpl; rewrite ?in_app_iff; simpl; tauto.
Qed.

Lemma py_int_float_exp s : In 101 s -> py_int (re_decimal_sub s) = None.
Proof. intros H. apply (py_int_bad 101); try done. by apply re_decimal_sub_keep. Qed.

(** A point and a last digit other than zero: a fraction. *)
Lemma py_int_float_frac s d :
  In 46 (s ++ [d]) -> 49 <= d <= 57 -> py_int (re_decimal_sub (s ++ [d])) = None.
Proof.
  intros H Hd. rewrite re_decimal_sub_last by (try lia; apply py_isspace_digit; lia).
  by apply (py_int_bad 46).
Qed.

(** What [int(re_decimal.sub('', str(f)))] gives on a float other than
    zero, by its shortest digits [m' * 10 ^ e']: the integer when [e'] is
    not negative and the integer has at most sixteen digits ([repr] then
    prints it with [.0]), and an error otherwise (a fraction or an
    exponent is left in the text). *)
Lemma float_repr_shortest neg m e :
  Z.of_N m <> 0 ->
  let '(m', e') := shortest (Z.of_N m) e in
  (0 <= e' /\ m' * 10 ^ e' < 10 ^ 16 /\
   py_int (re_decimal_sub (float_repr neg m e)) = Some (if neg then - (m' * 10 ^ e') else m' * 10 ^ e')) \/
  ((e' < 0 \/ 10 ^ 16 <= m' * 10 ^ e') /\ py_int (re_decimal_sub (float_repr neg m e)) = None).
Proof.
  intros H0. pose proof (shortest_spec (Z.of_N m) e ltac:(lia)) as Hs.
  unfold float_repr. rewrite (proj2 (Z.eqb_neq _ 0)) by done. revert Hs.
  destruct (shortest (Z.of_N m) e) as [m' e']. intros (Hp & H10 & He & Hv). cbv beta iota zeta.
  destruct (py_str_int_pos m' Hp) as (Hne & Hd & Hval & Hb & [pre Hpre]).
  set (ds := py_str_int m') in *. clearbody ds.
  assert (Hn : 1 <= Z.of_nat (length ds)) by (destruct ds; [done|simpl; lia]).
  set (n := Z.of_nat (length ds)) in *.
  assert (Hint : 0 <= e' -> (m' * 10 ^ e' < 10 ^ 16 <-> n + e' <= 16)) by (intros; by apply pow10_scaled_lt).
  assert (Hdig : 49 <= 48 + m' mod 10 <= 57) by (pose proof (Z.mod_pos_bound m' 10); lia).
  destruct (Z.leb_spec (n + e') (-4)); [|destruct (Z.ltb_spec 16 (n + e'))]; cbn [orb].
  - right. split; [lia|]. by apply py_int_float_exp, float_exp_in.
  - right. split; [|by apply py_int_float_exp, float_exp_in].
    destruct (Z.le_gt_cases 0 e'); [right; apply Z.nlt_ge; rewrite Hint; lia|by left].
  - destruct (Z.leb_spec (n + e') 0); [|destruct (Z.leb_spec n (n + e'))].
    + right. split; [lia|]. rewrite Hpre, !app_assoc. apply py_int_float_frac; [|done].
      rewrite <- !app_assoc. apply in_or_app; right. simpl; tauto.
    + left. split_and!; [lia|apply Hint; lia|]. replace (n + e' - n) with e' by lia.
      rewrite (re_decimal_sub_suffix _ ((if neg then [45] else []) ++ ds ++ zeros e') [48] []).
      * assert (Hds : Forall (fun c => 48 <= c <= 57) (ds ++ zeros e')).
        { apply Forall_app; split; [done|]. unfold zeros. induction (Z.to_nat e'); constructor; [lia|done]. }
        rewrite py_int_digits by (done || by intros [? _]%app_eq_nil).
        by rewrite digits_value_app, Hval, digits_value_zeros by lia.
      * split_and!; [by rewrite <- !app_assoc|repeat constructor|constructor].
    + right. split; [lia|].
      assert (Hk : (Z.to_nat (n + e') <= length pre)%nat).
      { apply (f_equal (@length Z)) in Hpre. rewrite length_app in Hpre. simpl in Hpre. lia. }
      rewrite Hpre at 2. rewrite skipn_app, (proj2 (Nat.sub_0_le _ _) Hk). cbn [skipn].
      rewrite !app_assoc. apply py_int_float_frac; [|done].
      do 2 (apply in_or_app; left). apply in_or_app; right. simpl; tauto.
Qed.

(** C32 [functional]: [IntegerField] on a JSON float ([Review.score]
    given as [4.0]): the float is read as the integer its value is when
    that value is an integer below [10 ^ 16] in magnitude, with its sign;
    any other float, a fraction or one of [10 ^ 16] or more (whose [repr]
    takes an exponent), is refused with [A valid integer is required]. *)
Theorem float_integer_field neg m e :
  integer_to_internal_value (JFloat neg m e) =
  match float_int_value m e with
  | Some v => if v <? 10 ^ 16 then Ok (if neg then - v else v) else Err InvalidInteger
  | None => Err InvalidInteger
  end.
Proof.
  cbn [integer_to_internal_value]. destruct (Z.eqb_spec (Z.of_N m) 0) as [H0|H0].
  - assert (Hz : float_int_value m e = Some 0)
      by (unfold float_int_value; rewrite H0; case_match; [done|by rewrite Z.mod_0_l, Z.div_0_l by (apply Z.pow_nonzero; lia)]).
    rewrite Hz. unfold float_repr. rewrite H0. by destruct neg.
  - pose proof (float_int_value_shortest m e H0) as Hv. pose proof (float_repr_shortest neg m e H0) as Hr.
    revert Hv Hr. destruct (shortest (Z.of_N m) e) as [m' e']. intros -> [(He & Hl & ->)|([He|Hl] & ->)].
    + rewrite (proj2 (Z.leb_le 0 e')), (proj2 (Z.ltb_lt _ _)) by done. done.
    + by rewrite (proj2 (Z.leb_gt 0 e')).
    + destruct (Z.leb_spec 0 e'); [|done]. by rewrite (proj2 (Z.ltb_ge _ _)).
Qed.




Lemma re_decimal_sub_str z : re_decimal_sub (py_str_int z) = py_str_int z.
Proof.
  apply re_decimal_sub_nodot. intros Hin.
  pose proof (proj1 (List.Forall_forall _ _) (py_str_int_chars z) 46 Hin). simpl in *; lia.
Qed.

Lemma integer_to_internal_int z : integer_to_internal_value (JInt z) = Ok z.
Proof. simpl. by rewrite re_decimal_sub_str, py_int_str. Qed.

Lemma validators_result_Ok {A} (v w : A) errs :
  validators_result v errs = Ok w <-> errs = [] /\ v = w.
Proof. destruct errs; simpl; split; intros H; try done; naive_solver. Qed.

Lemma char_validators_nil max v :
  char_validators max v = [] <-> Z.of_nat (length v) <= max /\ ~ In 0 v /\ no_surrogates v.
Proof.
  unfold char_validators, no_surrogates. rewrite !app_nil, <- find_None_Forall.
  assert (Hex : existsb (fun c => c =? 0) v = true <-> In 0 v).
  { rewrite existsb_exists. split; [intros (c & Hc & ->%Z.eqb_eq); done|intros; exists 0; auto]. }
  destruct (Z.ltb_spec max (Z.of_nat (length v))), (existsb _ v), (find is_surrogate v);
    naive_solver lia.
Qed.

Lemma char_field_Ok_text max d v :
  char_field_run_validation max d = Ok v ->
  exists s, strip s = v /\ char_validators max v = [].
Proof.
  destruct d as [[| | | |s| |]|]; simpl; try done.
  1,2: intros [? <-]%validators_result_Ok; eexists; split; [apply strip_idem|done].
  - destruct (strip s) eqn:E; [done|]. intros [? <-]%validators_result_Ok. eauto.
Qed.

Lemma content_field_Ok d v :
  content_field d = Ok v ->
  v <> [] /\ (length v <= 100)%nat /\ ~ In 0 v /\ no_surrogates v /\ strip v = v.
Proof.
  intros Hv. destruct (char_field_Ok_text _ _ _ Hv) as (s & Hs & (Hlen & Hnul & Hsur)%char_validators_nil).
  split_and!; [|lia|done|done|by rewrite <- Hs, strip_idem].
  revert Hv. unfold content_field. destruct d as [[| | | |s'| |]|]; simpl; try done.
  - intros [_ <-]%validators_result_Ok Hnil. unfold py_str_int in Hnil.
    destruct (digits_fuel_spec _ _ (py_str_int_fuel z)) as (Hne & Hd & _).
    rewrite strip_nospace in Hnil.
    + apply app_eq_nil in Hnil as [_ ?]. done.
    + eapply Forall_impl; [apply (py_str_int_chars z)|]. simpl; intros; apply py_isspace_digit; lia.
  - intros [_ <-]%validators_result_Ok Hnil. destruct (float_repr_chars neg m e) as [Hne Hc].
    rewrite strip_nospace in Hnil; [done|]. eapply Forall_impl; [exact Hc|]. exact float_char_nospace.
  - destruct (strip s') eqn:E; [done|]. by intros [_ <-]%validators_result_Ok.
Qed.

(** C14 [safety]: the content a review is saved with is what the model
    column admits: non-empty, at most 100 characters, without null
    characters or lone surrogates, and trimmed of surrounding
    whitespace. *)
Theorem content_field_sound d v :
  content_field d = Ok v ->
  v <> [] /\ (length v <= 100)%nat /\ ~ In 0 v /\ no_surrogates v /\ strip v = v.
Proof. apply content_field_Ok. Qed.

Lemma content_field_JStr s :
  strip s <> [] -> (length (strip s) <= 100)%nat -> ~ In 0 (strip s) -> no_surrogates (strip s) ->
  content_field (Some (JStr s)) = Ok (strip s).
Proof.
  intros Hne Hlen Hnul Hsur. unfold content_field. simpl.
  destruct (strip s) as [|c r] eqn:E; [done|].
  assert (char_validators 100 (c :: r) = []) as -> by (apply char_validators_nil; split_and!; [lia|done|done]).
  done.
Qed.

(** C15 [functional]: a string member is accepted exactly when its trimmed
    text is non-empty, at most 100 characters long and free of null
    characters and lone surrogates, and the content saved is the trimmed
    text. *)
Theorem content_field_strip s :
  strip s <> [] -> (length (strip s) <= 100)%nat -> ~ In 0 (strip s) -> no_surrogates (strip s) ->
  content_field (Some (JStr s)) = Ok (strip s).
Proof. apply content_field_JStr. Qed.

Lemma content_field_JStr_long s :
  (100 < length (strip s))%nat ->
  exists errs, content_field (Some (JStr s)) = Err errs /\ In (MaxLength 100) errs.
Proof.
  intros Hlen. unfold content_field. simpl.
  destruct (strip s) as [|c r] eqn:E; [simpl in Hlen; lia|].
  unfold char_validators. destruct (Z.ltb_spec 100 (Z.of_nat (length (c :: r)))); [|lia].
  eexists; split; [reflexivity|]. by left.
Qed.

Lemma content_field_JStr_surrogate s c :
  find is_surrogate (strip s) = Some c ->
  exists errs, content_field (Some (JStr s)) = Err errs /\ In (SurrogateCharacters c) errs.
Proof.
  intros Hf. unfold content_field. simpl.
  destruct (strip s) as [|c0 r] eqn:E; [done|].
  unfold char_validators. rewrite Hf.
  destruct (_ <? _), (existsb _ _); eexists; (split; [reflexivity|]); simpl; tauto.
Qed.

(** C16 [error]: a content is rejected with the [max_length] error when
    its trimmed text is longer than 100 characters, and with
    [surrogate_characters_not_allowed], naming the first one, when it
    holds a lone surrogate; the errors of all failing validators are
    reported together. *)
Theorem content_field_rejects s :
  ((100 < length (strip s))%nat ->
   exists errs, content_field (Some (JStr s)) = Err errs /\ In (MaxLength 100) errs) /\
  (forall c, find is_surrogate (strip s) = Some c ->
   exists errs, content_field (Some (JStr s)) = Err errs /\ In (SurrogateCharacters c) errs).
Proof. split; [apply content_field_JStr_long|intros c; apply content_field_JStr_surrogate]. Qed.

Lemma score_field_int z :
  score_field (Some (JInt z)) = Ok z /\
  (Z.of_nat (length (py_str_int z)) <= MAX_STRING_LENGTH -> score_field (Some (JStr (py_str_int z))) = Ok z).
Proof.
  unfold score_field, integer_field_run_validation. rewrite integer_to_internal_int.
  split; [done|]. intros Hl. simpl.
  destruct (Z.ltb_spec MAX_STRING_LENGTH (Z.of_nat (length (py_str_int z)))); [lia|].
  by rewrite re_decimal_sub_str, py_int_str.
Qed.

(** C18 [roundtrip]: every score is accepted back at any size, as a JSON
    number and as the decimal string [str(score)] as long as that string
    is within DRF's 1000-character limit; the field sets no range. *)
Theorem score_field_roundtrip z :
  score_field (Some (JInt z)) = Ok z /\
  (Z.of_nat (length (py_str_int z)) <= MAX_STRING_LENGTH -> score_field (Some (JStr (py_str_int z))) = Ok z).
Proof. apply score_field_int. Qed.

(** ** Witnesses *)

Lemma content_field_sound_witness :
  content_field (Some (JStr (txt "  nice  "))) = Ok (txt "nice") /\
  (txt "nice" <> [] /\ (length (txt "nice") <= 100)%nat /\ ~ In 0 (txt "nice") /\
   no_surrogates (txt "nice") /\ strip (txt "nice") = txt "nice").
Proof.
  assert (H : content_field (Some (JStr (txt "  nice  "))) = Ok (txt "nice")) by (vm_compute; reflexivity).
  split; [exact H|exact (content_field_sound _ _ H)].
Defined.

Lemma content_field_strip_witness :
  content_field (Some (JStr (txt " great "))) = Ok (strip (txt " great ")) /\
  strip (txt " great ") = txt "great".
Proof.
  split; [|vm_compute; reflexivity].
  apply content_field_strip; vm_compute;
    [discriminate|lia|intros [H|[H|[H|[H|[H|[]]]]]]; discriminate|repeat constructor].
Defined.

Definition long_text : text := repeat 97 101.

(** A text ending in the high half of a surrogate pair, as [json.loads]
    gives for ["a\ud83d"]. *)
Definition lone_surrogate_text : text := txt "a" ++ [55357].

Lemma content_field_rejects_witness :
  (100 < length (strip long_text))%nat /\
  (exists errs, content_field (Some (JStr long_text)) = Err errs /\ In (MaxLength 100) errs) /\
  find is_surrogate (strip lone_surrogate_text) = Some 55357 /\
  (exists errs, content_field (Some (JStr lone_surrogate_text)) = Err errs /\
                In (SurrogateCharacters 55357) errs) /\
  error_message (SurrogateCharacters 55357) = txt "Surrogate characters are not allowed: U+D83D.".
Proof.
  assert (H : (100 < length (strip long_text))%nat) by (vm_compute; lia).
  assert (Hs : find is_surrogate (strip lone_surrogate_text) = Some 55357) by (vm_compute; reflexivity).
  split_and!; [exact H|exact (proj1 (content_field_rejects long_text) H)|exact Hs
              |exact (proj2 (content_field_rejects lone_surrogate_text) _ Hs)|vm_compute; reflexivity].
Defined.

(** [2 ^ 31], a score a 32-bit column would refuse, is accepted in both forms. *)
Lemma score_field_roundtrip_witness :
  Z.of_nat (length (py_str_int 2147483648)) <= MAX_STRING_LENGTH /\
  score_field (Some (JInt 2147483648)) = Ok 2147483648 /\
  score_field (Some (JStr (py_str_int 2147483648))) = Ok 2147483648.
Proof.
  assert (H : Z.of_nat (length (py_str_int 2147483648)) <= MAX_STRING_LENGTH) by (vm_compute; discriminate).
  split_and!; [exact H|exact (proj1 (score_field_roundtrip 2147483648))
              |exact (proj2 (score_field_roundtrip 2147483648) H)].
Defined.

End Fields.
