(* ===== verification/Serializers.v ===== *)
(** * The serializers of [src/movies/serializers.py]

    The three read shapes are functions from rows to JSON objects whose
    members are the serializer's [fields], in the order [Meta.fields]
    lists them: [movie_serializer] ([MovieSerializer]),
    [genre_serializer] ([GenreSerializer]) and [genre_detail_serializer]
    ([GenreDetailSerializer], whose [movies] member is
    [MovieSerializer(source='movie_set', many=True)]: the movies whose
    [genre_id] is the genre's id, in primary-key order).

    [ReviewSerializer] is both a read shape ([review_serializer]) and the
    input validator of the two write views: [review_is_valid] runs the two
    fields of [Fields] on the request body and gathers their errors as
    [serializer.errors]; [review_serializer_create] and
    [review_serializer_update] are [serializer.save(...)] without and with
    an instance. *)

From Stdlib Require Import ZArith List Lia.
From stdpp Require Import base list.
From S2P Require Import Prelude Json Table Models Fields.
Import ListNotations Table Models Fields.
Open Scope Z_scope.

Module Serializers.

(** [serializer.data] of one movie. *)
Definition movie_serializer (id : Z) (m : Movie) : json :=
  JObj [(txt "id", JInt id); (txt "title", JStr (title m));
        (txt "audience", JInt (audience m)); (txt "poster_url", JStr (poster_url m));
        (txt "description", JStr (description m)); (txt "genre_id", JInt (genre_id m))].

Definition genre_serializer (id : Z) (g : Genre) : json :=
  JObj [(txt "id", JInt id); (txt "name", JStr (name g))].

(** [genre.movie_set.all()]. *)
Definition movie_set (d : db) (gid : Z) : list (Z * Movie) :=
  filter_rows (fun m => genre_id m =? gid) (movies d).

(** [many=True]: one shape per row, in order. *)
Definition serialize_many {A} (f : Z -> A -> json) (l : list (Z * A)) : json :=
  JArr (map (fun '(k, a) => f k a) l).

Definition genre_detail_serializer (d : db) (id : Z) (g : Genre) : json :=
  JObj [(txt "id", JInt id); (txt "movies", serialize_many movie_serializer (movie_set d id));
        (txt "name", JStr (name g))].

Definition review_serializer (r : Review) : json :=
  JObj [(txt "content", JStr (content r)); (txt "score", JInt (score r))].

(** [serializer.errors]: the failing fields, in declaration order. *)
Definition serializer_errors := list (text * list field_error).

Definition field_errors {A} (fname : text) (r : result A (list field_error)) : serializer_errors :=
  match r with Ok _ => [] | Err es => [(fname, es)] end.

(** [ReviewSerializer(data=data).is_valid()]: [validated_data] is the
    trimmed content and the score. *)
Definition review_is_valid (data : jobject) : result (text * Z) serializer_errors :=
  let c := content_field (obj_get (txt "content") data) in
  let s := score_field (obj_get (txt "score") data) in
  match c, s with
  | Ok cv, Ok sv => Ok (cv, sv)
  | _, _ => Err (field_errors (txt "content") c ++ field_errors (txt "score") s)
  end.

(** [is_valid()] on the whole parsed body: [run_validation] refuses
    [None] ([validate_empty_values], reported by [Serializer.errors] as
    [No data provided]) and, in [to_internal_value], a body that is not a
    dictionary, both under [non_field_errors]; a dictionary goes to the
    fields. *)
Definition review_run_validation (data : json) : result (text * Z) serializer_errors :=
  match data with
  | JObj members => review_is_valid members
  | JNull => Err [(txt "non_field_errors", [NoData])]
  | _ => Err [(txt "non_field_errors", [InvalidData (json_type_name data)])]
  end.

(** The response body of a [ValidationError]. *)
Definition errors_json (errs : serializer_errors) : json :=
  JObj (map (fun '(f, es) => (f, JArr (map (fun e => JStr (error_message e)) es))) errs).

(** [serializer.save(movie_id=id)]: [Review.objects.create] of the validated data and [movie_id]. *)
Definition review_serializer_create (validated : text * Z) (mid : Z) (d : db)
    : result (Z * db) db_error :=
  Models.review_create (mkReview validated.1 validated.2 mid) d.

(** [ReviewSerializer(data=..., instance=review).save()]: the validated
    attributes are set on the instance, then [instance.save()]. *)
Definition review_serializer_update (id : Z) (instance : Review) (validated : text * Z) (d : db)
    : result db db_error :=
  Models.review_save id (mkReview validated.1 validated.2 (movie_id instance)) d.

(** ** Lemmas *)

Lemma review_is_valid_Ok data v :
  review_is_valid data = Ok v <->
  content_field (obj_get (txt "content") data) = Ok v.1 /\
  score_field (obj_get (txt "score") data) = Ok v.2.
Proof.
  unfold review_is_valid. destruct v as [cv sv].
  destruct (content_field _), (score_field _); simpl; split; try naive_solver.
Qed.

Lemma review_is_valid_Err data errs :
  review_is_valid data = Err errs ->
  errs = field_errors (txt "content") (content_field (obj_get (txt "content") data))
         ++ field_errors (txt "score") (score_field (obj_get (txt "score") data)) /\ errs <> [].
Proof.
  unfold review_is_valid.
  destruct (content_field _), (score_field _); simpl; intros [= <-]; split; try done;
    destruct e; try done.
  all: try (destruct e0; done).
Qed.

Lemma movie_serializer_inj k m k' m' :
  movie_serializer k m = movie_serializer k' m' -> k = k' /\ m = m'.
Proof.
  destruct m, m'; unfold movie_serializer; simpl. intros [= -> -> -> -> -> ->]. done.
Qed.

Lemma genre_serializer_inj k g k' g' :
  genre_serializer k g = genre_serializer k' g' -> k = k' /\ g = g'.
Proof. destruct g, g'; unfold genre_serializer; simpl. intros [= -> ->]. done. Qed.

Section Many.
Context {A : Type} (f : Z -> A -> json).
Hypothesis f_inj : forall k a k' a', f k a = f k' a' -> k = k' /\ a = a'.

(** A row is listed exactly when it is a row of the table. *)
Lemma serialize_many_elem (l : list (Z * A)) k a :
  serialize_many f l = JArr (map (fun '(k, a) => f k a) l) /\
  (f k a ∈ map (fun '(k, a) => f k a) l <-> (k, a) ∈ l).
Proof.
  split; [done|]. split.
  - intros ([k' a'] & Heq & Hin)%list_elem_of_fmap. by destruct (f_inj _ _ _ _ Heq) as [-> ->].
  - intros Hin. apply list_elem_of_fmap. by exists (k, a).
Qed.

(** Rows with distinct ids give distinct shapes. *)
Lemma serialize_many_NoDup (l : list (Z * A)) :
  NoDup l.*1 -> NoDup (map (fun '(k, a) => f k a) l).
Proof.
  intros Hnd%NoDup_fmap_1.
  assert (Hinj : Inj eq eq (fun '(k, a) => f k a : json)).
  { intros [k a] [k' a'] Heq. by destruct (f_inj _ _ _ _ Heq) as [-> ->]. }
  by apply (NoDup_fmap_2 (fun '(k, a) => f k a)).
Qed.
End Many.

(** A review whose content is admissible reads back through the input
    shape. *)
Lemma content_field_admissible v :
  v <> [] -> (length v <= 100)%nat -> ~ In 0 v -> no_surrogates v -> strip v = v ->
  content_field (Some (JStr v)) = Ok v.
Proof. intros Hne Hlen Hnul Hsur Hs. rewrite <- Hs at 2. apply content_field_JStr; by rewrite Hs. Qed.

(** The content and score a saved review can hold: a content
    [ReviewSerializer] admits, and a score the store's [INTEGER] column
    admits. *)
Definition review_admissible (r : Review) : Prop :=
  content r <> [] /\ (length (content r) <= 100)%nat /\ ~ In 0 (content r) /\
  no_surrogates (content r) /\ strip (content r) = content r /\ sqlite_int (score r) = true.

(** C20 [roundtrip]: the output of [ReviewSerializer] on a saved review is
    valid input for it, and validates to the same content and score. *)
Theorem review_serializer_roundtrip r :
  review_admissible r ->
  exists members, review_serializer r = JObj members /\
                  review_is_valid members = Ok (content r, score r).
Proof.
  intros (Hne & Hlen & Hnul & Hsur & Hs & Hsc). eexists; split; [reflexivity|].
  apply review_is_valid_Ok; simpl. split.
  - by apply content_field_admissible.
  - apply score_field_int.
Qed.

(** What [review_is_valid] accepts, with a score the store binds, is
    admissible. *)
Lemma review_is_valid_admissible data cv sv mid :
  review_is_valid data = Ok (cv, sv) -> sqlite_int sv = true -> review_admissible (mkReview cv sv mid).
Proof.
  intros [Hc _]%review_is_valid_Ok Hs. simpl in *.
  destruct (content_field_Ok _ _ Hc) as (? & ? & ? & ? & ?). unfold review_admissible; simpl; tauto.
Qed.

Lemma review_run_validation_admissible data cv sv mid :
  review_run_validation data = Ok (cv, sv) -> sqlite_int sv = true -> review_admissible (mkReview cv sv mid).
Proof. destruct data; try done. apply review_is_valid_admissible. Qed.

(** ** Witnesses *)

Lemma review_serializer_roundtrip_witness :
  review_admissible (mkReview (txt "nice") 4 3) /\
  exists members, review_serializer (mkReview (txt "nice") 4 3) = JObj members /\
                  review_is_valid members = Ok (txt "nice", 4).
Proof.
  assert (H : review_admissible (mkReview (txt "nice") 4 3)).
  { unfold review_admissible; simpl. split_and!; [discriminate|lia| |by repeat constructor|reflexivity|reflexivity].
    intros [H|[H|[H|[H|[]]]]]; discriminate. }
  split; [exact H|exact (review_serializer_roundtrip _ H)].
Defined.

End Serializers.
