(* ===== verification/Views.v ===== *)
(** * The views of [src/movies/views.py]

    A view maps a request and the database to a response and the database
    after the request.  DRF's [@api_view([...])] answers 405 to a method
    outside its list before the view runs ([api_view]); inside a view,
    [get_object_or_404] raises [Http404], which DRF's exception handler
    turns into a 404 with [{'detail': 'Not found.'}], and
    [is_valid(raise_exception=True)] raises [ValidationError], which
    becomes a 400 carrying [serializer.errors].  An error of the store
    ([OverflowError] of a score past SQLite's 64-bit [INTEGER],
    [IntegrityError] of a missing movie) is not handled: Django answers
    its plain 500 page and the failed statement leaves the database as it
    was.

    [request.data] is the parsed JSON body, any JSON value ([mkRequest]
    builds a request whose body is an object), or the [QueryDict] of a
    form-encoded body read through [form_data].

    [genre_list], [genre_detail], [movie_list], [movie_detail],
    [review_create] and [review_detail] are the six views, each with the
    source's branches in the source's order. *)

From Stdlib Require Import ZArith List Sorted Lia.
From stdpp Require Import base list gmap.
From S2P Require Import Prelude Json Table Models Fields Serializers.
Import ListNotations Table Models Fields Serializers.
Open Scope Z_scope.

Module Views.

Inductive method := GET | POST | PUT | PATCH | DELETE.

#[export] Instance method_eq_dec : EqDecision method.
Proof. solve_decision. Defined.

Definition method_eqb (a b : method) : bool :=
  match a, b with
  | GET, GET | POST, POST | PUT, PUT | PATCH, PATCH | DELETE, DELETE => true
  | _, _ => false
  end.

Definition method_name (m : method) : text :=
  match m with
  | GET => txt "GET" | POST => txt "POST" | PUT => txt "PUT"
  | PATCH => txt "PATCH" | DELETE => txt "DELETE"
  end.

(** A request: its method and [request.data], the parsed body. *)
Record request := mkReq { req_method : method; req_body : json }.

(** A request whose body is a JSON object. *)
Definition mkRequest (m : method) (data : jobject) : request := mkReq m (JObj data).

(** A response body: rendered JSON, or Django's own HTML page. *)
Inductive rbody := BJson (j : json) | BHtml (h : text).

Record response := mkResponse { status : Z; body : rbody }.

(** [Response(data)]. *)
Definition ok (j : json) : response := mkResponse 200 (BJson j).

(** [Http404] through DRF's exception handler. *)
Definition not_found : response := mkResponse 404 (BJson (JObj [(txt "detail", JStr (txt "Not found."))])).

(** [ValidationError(serializer.errors)]. *)
Definition bad_request (errs : serializer_errors) : response := mkResponse 400 (BJson (errors_json errs)).

(** An unhandled exception: Django's [server_error] page. *)
Definition server_error : response := mkResponse 500 (BHtml (txt "<h1>Server Error (500)</h1>")).

(** [MethodNotAllowed]: [Method "PATCH" not allowed.] *)
Definition method_not_allowed (m : method) : response :=
  mkResponse 405 (BJson (JObj [(txt "detail",
    JStr (txt "Method " ++ [34] ++ method_name m ++ [34] ++ txt " not allowed."))])).

Definition view := request -> db -> response * db.

(** [@api_view(allowed)]. *)
Definition api_view (allowed : list method) (v : view) : view :=
  fun req d =>
    if existsb (method_eqb (req_method req)) allowed then v req d
    else (method_not_allowed (req_method req), d).

(** The confirmation messages of the write views. *)
Definition msg_created : text := [51089; 49457; 46104; 50632; 49845; 45768; 45796; 46].
Definition msg_updated : text := [49688; 51221; 46104; 50632; 49845; 45768; 45796; 46].
Definition msg_deleted : text := [49325; 51228; 46104; 50632; 49845; 45768; 45796; 46].

(** A JSON request body [{"content": c, "score": s}]. *)
Definition body_of (c : text) (s : Z) : jobject :=
  [(txt "content", JStr c); (txt "score", JInt s)].

(** [request.data] of a form-encoded body: a [QueryDict] of text values.
    A field of [ReviewSerializer] reads it through [Field.get_value] for
    HTML input: a missing key is a missing member ([required=True]) and
    otherwise [QueryDict.__getitem__] gives the last value of the key
    ([allow_null=False] keeps an empty string as it is).  So the form is
    read as the object of its values as strings. *)
Definition form_data (q : list (text * text)) : jobject := map (fun '(k, v) => (k, JStr v)) q.

(** ** The six views *)

Definition genre_list : view :=
  api_view [GET] (fun _ d =>
    (ok (serialize_many genre_serializer (all_rows (genres d))), d)).

Definition genre_detail (id : Z) : view :=
  api_view [GET] (fun _ d =>
    match get_row id (genres d) with
    | None => (not_found, d)
    | Some g => (ok (genre_detail_serializer d id g), d)
    end).

Definition movie_list : view :=
  api_view [GET] (fun _ d =>
    (ok (serialize_many movie_serializer (all_rows (movies d))), d)).

Definition movie_detail (id : Z) : view :=
  api_view [GET] (fun _ d =>
    match get_row id (movies d) with
    | None => (not_found, d)
    | Some m => (ok (movie_serializer id m), d)
    end).

Definition review_create (id : Z) : view :=
  api_view [POST] (fun req d =>
    match review_run_validation (req_body req) with
    | Err errs => (bad_request errs, d)
    | Ok v =>
        match review_serializer_create v id d with
        | Ok (_, d') => (ok (message msg_created), d')
        | Err _ => (server_error, d)
        end
    end).

Definition review_detail (id : Z) : view :=
  api_view [GET; PUT; DELETE] (fun req d =>
    match get_row id (reviews d) with
    | None => (not_found, d)
    | Some review =>
        match req_method req with
        | GET => (ok (review_serializer review), d)
        | PUT =>
            match review_run_validation (req_body req) with
            | Err errs => (bad_request errs, d)
            | Ok v =>
                match review_serializer_update id review v d with
                | Ok d' => (ok (message msg_updated), d')
                | Err _ => (server_error, d)
                end
            end
        | _ => (ok (message msg_deleted), review_delete id d)
        end
    end).

(** ** Lemmas *)

Lemma api_view_allowed allowed v req d :
  existsb (method_eqb (req_method req)) allowed = true -> api_view allowed v req d = v req d.
Proof. unfold api_view. by intros ->. Qed.

Lemma api_view_denied allowed v req d :
  existsb (method_eqb (req_method req)) allowed = false ->
  api_view allowed v req d = (method_not_allowed (req_method req), d).
Proof. unfold api_view. by intros ->. Qed.

(** The body of [GET /reviews/<id>/] for a review row. *)
Definition review_body (c : text) (s : Z) : json :=
  JObj [(txt "content", JStr c); (txt "score", JInt s)].

Lemma review_create_get_step d mid data c s :
  db_wf d = true -> is_Some (get_row mid (movies d)) -> review_is_valid data = Ok (c, s) ->
  sqlite_int s = true ->
  exists d',
    review_create mid (mkRequest POST data) d = (ok (message msg_created), d') /\
    forall data', review_detail (next_id (reviews d)) (mkRequest GET data') d' =
                  (ok (review_body c s), d').
Proof.
  intros Hwf Hm Hv Hs. destruct (db_wf_tables d Hwf) as (_ & _ & Hr).
  unfold review_create. rewrite api_view_allowed by done. simpl. rewrite Hv.
  unfold review_serializer_create. rewrite review_create_ok by done.
  eexists; split; [reflexivity|]. intros data'.
  unfold review_detail. rewrite api_view_allowed by done. cbn [reviews req_method].
  replace (next_id (reviews d)) with (create_row (mkReview c s mid) (reviews d)).1 by done.
  by rewrite get_create_eq.
Qed.

(** C1 [roundtrip]: a review created through [POST] on an existing movie
    with a score the store's [INTEGER] column holds gets the next id of
    the review table, the view answers the creation message, and a [GET]
    of that id returns the validated content and score. *)
Theorem review_create_then_get d mid data c s :
  db_wf d = true -> is_Some (get_row mid (movies d)) -> review_is_valid data = Ok (c, s) ->
  sqlite_int s = true ->
  exists d',
    review_create mid (mkRequest POST data) d = (ok (message msg_created), d') /\
    forall data', review_detail (next_id (reviews d)) (mkRequest GET data') d' =
                  (ok (review_body c s), d').
Proof. apply review_create_get_step. Qed.

(** C5 [functional]: a [PUT] of a valid body, with a score the store's
    [INTEGER] column holds, on an existing review replaces both its content and its score; a following [GET] returns the
    new values, and the review's movie is unchanged. *)
Theorem review_update_then_get d id r data c s :
  db_wf d = true -> get_row id (reviews d) = Some r -> review_is_valid data = Ok (c, s) ->
  sqlite_int s = true ->
  exists d',
    review_detail id (mkRequest PUT data) d = (ok (message msg_updated), d') /\
    get_row id (reviews d') = Some (mkReview c s (movie_id r)) /\
    forall data', review_detail id (mkRequest GET data') d' = (ok (review_body c s), d').
Proof.
  intros Hwf Hr Hv Hs. pose proof (db_wf_review_movie d id r Hwf Hr) as Hm.
  unfold review_detail. rewrite api_view_allowed by done. cbn [req_method req_body mkRequest review_run_validation].
  rewrite Hr, Hv. unfold review_serializer_update. rewrite review_save_ok by done.
  eexists; split_and!; [reflexivity| |].
  - simpl. by rewrite get_save_eq, Hr.
  - intros data'. rewrite api_view_allowed by done. simpl.
    by rewrite get_save_eq, Hr.
Qed.

(** C6 [functional]: a [DELETE] of an existing review answers the deletion
    message and removes it: a following [GET] of that id is a 404. *)
Theorem review_delete_then_get d id r data data' :
  get_row id (reviews d) = Some r ->
  review_detail id (mkRequest DELETE data) d = (ok (message msg_deleted), review_delete id d) /\
  review_detail id (mkRequest GET data') (review_delete id d) = (not_found, review_delete id d).
Proof.
  intros Hr. unfold review_detail. rewrite !api_view_allowed by done.
  cbn [req_method]. rewrite Hr. split; [done|].
  simpl. by rewrite get_delete_eq.
Qed.


(** C7 [error]: a [POST] whose body fails validation answers 400 with the
    serializer's errors and writes nothing; in particular a content longer
    than 100 characters after trimming is reported under [content]. *)
Theorem review_create_invalid d mid data errs :
  review_is_valid data = Err errs ->
  review_create mid (mkRequest POST data) d = (bad_request errs, d) /\
  (forall s, obj_get (txt "content") data = Some (JStr s) -> (100 < length (strip s))%nat ->
     exists es, In (txt "content", es) errs /\ In (MaxLength 100) es).
Proof.
  intros Hv. split.
  - unfold review_create. rewrite api_view_allowed by done. simpl. by rewrite Hv.
  - intros s Hs Hlen. apply review_is_valid_Err in Hv as [-> _].
    destruct (content_field_JStr_long s Hlen) as (es & Hc & Hin).
    rewrite Hs, Hc. exists es. split; [by left|done].
Qed.

(** C12 [error]: a valid [POST] on a movie id without a row is not
    answered 404: the insert violates the foreign key, the request fails
    with Django's 500 page, and no review is stored. *)
Theorem review_create_missing_movie d mid data c s :
  get_row mid (movies d) = None -> review_is_valid data = Ok (c, s) ->
  review_create mid (mkRequest POST data) d = (server_error, d).
Proof.
  intros Hm Hv. unfold review_create. rewrite api_view_allowed by done. simpl.
  rewrite Hv. unfold review_serializer_create. cbn [fst snd].
  by destruct (review_create_err (mkReview c s mid) d Hm) as [e ->].
Qed.

(** C17 [bounds]: the score of a review created through [POST] is bounded
    by the store, not by the serializer: a valid body on an existing movie
    is stored, at the next id and with its score, exactly when the score
    lies in SQLite's 64-bit [INTEGER] range; any other score passes
    validation, and the insert fails with [OverflowError], Django's 500
    page, with nothing written. *)
Theorem review_create_score_range d mid data c s :
  is_Some (get_row mid (movies d)) -> review_is_valid data = Ok (c, s) ->
  (sqlite_int s = true ->
     review_create mid (mkRequest POST data) d =
       (ok (message msg_created), mkDB (genres d) (movies d) (create_row (mkReview c s mid) (reviews d)).2)) /\
  (sqlite_int s = false -> review_create mid (mkRequest POST data) d = (server_error, d)).
Proof.
  intros Hm Hv. unfold review_create. rewrite api_view_allowed by done. simpl.
  rewrite Hv. unfold review_serializer_create. cbn [fst snd].
  split; intros Hs; [by rewrite review_create_ok|by rewrite review_create_overflow].
Qed.

(** C19 [error]: a [PUT] on an existing review whose body is valid but
    whose score lies outside SQLite's 64-bit [INTEGER] range is not
    refused by the serializer: the [UPDATE] fails with [OverflowError],
    Django answers its 500 page, and the review keeps its content and
    score. *)
Theorem review_update_score_overflow d id r data c s :
  get_row id (reviews d) = Some r -> review_is_valid data = Ok (c, s) -> sqlite_int s = false ->
  review_detail id (mkRequest PUT data) d = (server_error, d).
Proof.
  intros Hr Hv Hs. unfold review_detail. rewrite api_view_allowed by done.
  cbn [req_method req_body mkRequest review_run_validation]. rewrite Hr, Hv.
  unfold review_serializer_update. cbn [fst snd]. by rewrite review_save_overflow.
Qed.

(** C22 [safety]: each view refuses the methods its [@api_view] does not
    list with a 405 and leaves the database unchanged. *)
Theorem views_method_not_allowed d id req :
  let m := req_method req in
  (m <> GET -> genre_list req d = (method_not_allowed m, d) /\
               genre_detail id req d = (method_not_allowed m, d) /\
               movie_list req d = (method_not_allowed m, d) /\
               movie_detail id req d = (method_not_allowed m, d)) /\
  (m <> POST -> review_create id req d = (method_not_allowed m, d)) /\
  (m = POST \/ m = PATCH -> review_detail id req d = (method_not_allowed m, d)).
Proof.
  simpl. split_and!.
  - intros Hm. split_and!; apply api_view_denied; by destruct (req_method req).
  - intros Hm. apply api_view_denied. by destruct (req_method req).
  - intros Hm. apply api_view_denied. by destruct Hm as [-> | ->].
Qed.

(** C3 [functional]: the detail of an existing genre lists under [movies]
    exactly the movies whose [genre_id] is that genre's id. *)
Theorem genre_detail_movies d gid g req :
  db_wf d = true -> get_row gid (genres d) = Some g -> req_method req = GET ->
  exists items,
    genre_detail gid req d =
      (ok (JObj [(txt "id", JInt gid); (txt "movies", JArr items); (txt "name", JStr (name g))]), d) /\
    forall k m, movie_serializer k m ∈ items <-> get_row k (movies d) = Some m /\ genre_id m = gid.
Proof.
  intros Hwf Hg Hm. destruct (db_wf_tables d Hwf) as (_ & Hmv & _).
  unfold genre_detail. rewrite api_view_allowed by (by rewrite Hm). rewrite Hg.
  eexists; split; [reflexivity|]. intros k m.
  assert (Hset : (k, m) ∈ movie_set d gid <-> get_row k (movies d) = Some m /\ genre_id m = gid).
  { unfold movie_set. rewrite filter_rows_spec by done. cbv beta. by rewrite get_row_spec, Z.eqb_eq. }
  rewrite <- Hset. unfold serialize_many. split.
  - intros ([k' m'] & Heq & Hin)%list_elem_of_fmap.
    by destruct (movie_serializer_inj _ _ _ _ Heq) as [-> ->].
  - intros Hin. apply list_elem_of_fmap. by exists (k, m).
Qed.

(** C13 [safety]: ids of deleted reviews are never reused: after a review
    is deleted, a review created by a later [POST] gets another id, and
    a [GET] of the deleted id stays 404. *)
Theorem deleted_review_id_not_reused d id r mid data c s :
  db_wf d = true -> get_row id (reviews d) = Some r ->
  is_Some (get_row mid (movies d)) -> review_is_valid data = Ok (c, s) -> sqlite_int s = true ->
  exists d2,
    review_create mid (mkRequest POST data) (review_delete id d) = (ok (message msg_created), d2) /\
    review_detail id (mkRequest GET []) d2 = (not_found, d2).
Proof.
  intros Hwf Hr Hm Hv Hs. pose proof (review_delete_wf id d Hwf) as Hwf1.
  destruct (db_wf_tables d Hwf) as (_ & _ & Hrt).
  pose proof (get_row_lt_next id r _ Hrt Hr) as Hlt.
  unfold review_create. rewrite api_view_allowed by done. cbn [req_body mkRequest review_run_validation]. rewrite Hv.
  unfold review_serializer_create. rewrite review_create_ok by done.
  eexists; split; [reflexivity|].
  unfold review_detail. rewrite api_view_allowed by done. cbn [reviews].
  rewrite get_create_ne by (first [apply (db_wf_tables _ Hwf1) | simpl; lia]).
  unfold review_delete; cbn [reviews]. by rewrite get_delete_eq.
Qed.

Lemma in_rows_get {A} (t : table A) k a :
  table_wf t = true -> (k, a) ∈ rows t <-> get_row k t = Some a.
Proof. intros Hwf. rewrite get_row_spec. apply elem_of_list_to_map. by apply table_wf_NoDup. Qed.

(** C23 [functional]: [GET genres/] and [GET movies/] list every genre and
    every movie of the database, each exactly once, and write nothing. *)
Theorem list_views_complete d req :
  db_wf d = true -> req_method req = GET ->
  exists gs ms,
    genre_list req d = (ok (JArr gs), d) /\ movie_list req d = (ok (JArr ms), d) /\
    (forall k g, genre_serializer k g ∈ gs <-> get_row k (genres d) = Some g) /\
    (forall k m, movie_serializer k m ∈ ms <-> get_row k (movies d) = Some m) /\
    NoDup gs /\ NoDup ms.
Proof.
  intros Hwf Hm. destruct (db_wf_tables d Hwf) as (Hg & Hmv & _).
  unfold genre_list, movie_list. rewrite !api_view_allowed by (by rewrite Hm).
  eexists _, _. split_and!; [reflexivity|reflexivity| | | |].
  - intros k g. rewrite (proj2 (serialize_many_elem _ genre_serializer_inj _ k g)).
    by apply in_rows_get.
  - intros k m. rewrite (proj2 (serialize_many_elem _ movie_serializer_inj _ k m)).
    by apply in_rows_get.
  - apply serialize_many_NoDup; [apply genre_serializer_inj|by apply table_wf_NoDup].
  - apply serialize_many_NoDup; [apply movie_serializer_inj|by apply table_wf_NoDup].
Qed.

(** The two fields read only their own members. *)
Lemma review_is_valid_insert o1 extra o2 :
  Forall (fun kv => kv.1 <> txt "content" /\ kv.1 <> txt "score") extra ->
  review_is_valid (o1 ++ extra ++ o2) = review_is_valid (o1 ++ o2).
Proof.
  intros Hx. unfold review_is_valid.
  rewrite !obj_get_insert_absent by (eapply Forall_impl; [exact Hx|]; simpl; tauto).
  done.
Qed.

(** The write views read the body only through [review_is_valid]. *)
Lemma write_views_data mid id d data data' :
  review_is_valid data = review_is_valid data' ->
  review_create mid (mkRequest POST data) d = review_create mid (mkRequest POST data') d /\
  review_detail id (mkRequest PUT data) d = review_detail id (mkRequest PUT data') d.
Proof.
  intros Hv. unfold review_create, review_detail, api_view. simpl. rewrite Hv. done.
Qed.

(** C25 [safety]: members of the body other than [content] and [score],
    such as [id] or [movie_id], are never read: a [POST] or a [PUT] with
    them answers and writes exactly as without them; the review's movie
    is the one of the path, or the review's own. *)
Theorem review_extra_members_ignored d mid id o1 extra o2 :
  Forall (fun kv => kv.1 <> txt "content" /\ kv.1 <> txt "score") extra ->
  review_create mid (mkRequest POST (o1 ++ extra ++ o2)) d =
    review_create mid (mkRequest POST (o1 ++ o2)) d /\
  review_detail id (mkRequest PUT (o1 ++ extra ++ o2)) d =
    review_detail id (mkRequest PUT (o1 ++ o2)) d.
Proof. intros Hx. apply write_views_data. by apply review_is_valid_insert. Qed.

(** C26 [equivalence]: a form-encoded body gives the same response and the
    same database as the JSON body with the same content and score, for
    every score whose decimal text is within DRF's 1000-character limit:
    [int()] of the score's text is the score, and the content is read as
    the same string. *)
Theorem form_body_equiv d mid id c z :
  Z.of_nat (length (py_str_int z)) <= MAX_STRING_LENGTH ->
  review_create mid (mkRequest POST (form_data [(txt "content", c); (txt "score", py_str_int z)])) d =
    review_create mid (mkRequest POST (body_of c z)) d /\
  review_detail id (mkRequest PUT (form_data [(txt "content", c); (txt "score", py_str_int z)])) d =
    review_detail id (mkRequest PUT (body_of c z)) d.
Proof.
  intros Hz. apply write_views_data. unfold review_is_valid.
  change (obj_get (txt "content") (form_data [(txt "content", c); (txt "score", py_str_int z)]))
    with (Some (JStr c)).
  change (obj_get (txt "score") (form_data [(txt "content", c); (txt "score", py_str_int z)]))
    with (Some (JStr (py_str_int z))).
  change (obj_get (txt "content") (body_of c z)) with (Some (JStr c)).
  change (obj_get (txt "score") (body_of c z)) with (Some (JInt z)).
  by rewrite (proj1 (score_field_int z)), (proj2 (score_field_int z) Hz).
Qed.

(** C27 [error]: a body without [content] and [score] is refused by both
    write views with a 400 whose body names both fields, [content] first,
    each with DRF's [required] message, and nothing is written. *)
Theorem review_write_missing_fields d mid id r data :
  obj_get (txt "content") data = None -> obj_get (txt "score") data = None ->
  review_create mid (mkRequest POST data) d =
    (mkResponse 400 (BJson (JObj [(txt "content", JArr [JStr (txt "This field is required.")]);
                                  (txt "score", JArr [JStr (txt "This field is required.")])])), d) /\
  (get_row id (reviews d) = Some r ->
   review_detail id (mkRequest PUT data) d =
    (mkResponse 400 (BJson (JObj [(txt "content", JArr [JStr (txt "This field is required.")]);
                                  (txt "score", JArr [JStr (txt "This field is required.")])])), d)).
Proof.
  intros Hc Hs. unfold review_create, review_detail, mkRequest, review_run_validation, review_is_valid, api_view. simpl.
  rewrite Hc, Hs. split; [reflexivity|]. intros Hr. by rewrite Hr.
Qed.

(** C30 [error]: a [POST] or a [PUT] whose JSON body is not an object is
    refused with a 400 under [non_field_errors] and nothing is written: a
    [null] body is reported as [No data provided], any other value with
    its Python type name. *)
Theorem review_write_non_object d mid id r j :
  (forall o, j <> JObj o) ->
  review_create mid (mkReq POST j) d =
    (bad_request [(txt "non_field_errors",
       [match j with JNull => NoData | _ => InvalidData (json_type_name j) end])], d) /\
  (get_row id (reviews d) = Some r ->
   review_detail id (mkReq PUT j) d =
    (bad_request [(txt "non_field_errors",
       [match j with JNull => NoData | _ => InvalidData (json_type_name j) end])], d)).
Proof.
  intros Hj.
  assert (Hv : review_run_validation j =
    Err [(txt "non_field_errors", [match j with JNull => NoData | _ => InvalidData (json_type_name j) end])]).
  { destruct j as [| | | | | |o]; try done. by destruct (Hj o). }
  unfold review_create, review_detail, api_view. simpl. rewrite Hv.
  split; [done|]. intros Hr. by rewrite Hr.
Qed.

(** [review_detail] reads and writes only the row of its id: what it
    answers depends on that row and the movies, and what it writes is that
    row's save or delete. *)
Lemma review_detail_local id req d :
  exists f : table Review -> table Review,
    (review_detail id req d).2 = mkDB (genres d) (movies d) (f (reviews d)) /\
    (forall t, get_row id t = get_row id (reviews d) ->
       (review_detail id req (mkDB (genres d) (movies d) t)).1 = (review_detail id req d).1 /\
       (review_detail id req (mkDB (genres d) (movies d) t)).2 = mkDB (genres d) (movies d) (f t)) /\
    (forall id', id' <> id -> forall t, get_row id' (f t) = get_row id' t) /\
    ((forall t, f t = t) \/ (exists r, forall t, f t = save_row id r t) \/ (forall t, f t = delete_row id t)).
Proof.
  unfold review_detail, api_view. destruct (existsb _ _) eqn:Hm.
  2: { exists (fun t => t). split_and!; [by destruct d|by intros t Ht; cbn [fst snd genres movies reviews]; rewrite ?Hm|done|by left]. }
  destruct (get_row id (reviews d)) as [r|] eqn:Hr.
  2: { exists (fun t => t). split_and!; [by destruct d| |done|by left].
       intros t Ht. cbn [fst snd genres movies reviews]. rewrite ?Hm, ?Ht. done. }
  destruct (req_method req) eqn:Em;
    try (exists (fun t => t); split_and!; [by destruct d| |done|by left];
         intros t Ht; cbn [fst snd genres movies reviews]; rewrite ?Hm, ?Ht, ?Em; done).
  - destruct (review_run_validation (req_body req)) as [[c s]|errs] eqn:Hv.
    + unfold review_serializer_update, review_save. simpl.
      destruct (sqlite_int s) eqn:Ho; simpl; [destruct (is_some (get_row _ (movies d))) eqn:Hfk|].
      * exists (save_row id (mkReview c s (movie_id r))). split_and!; [done| | |by right; left; eexists].
        -- intros t Ht. cbn [fst snd genres movies reviews]. rewrite ?Hm, ?Ht, ?Em, ?Hv. simpl. by rewrite ?Ho, ?Hfk.
        -- intros id' Hne t. by apply get_save_ne.
      * exists (fun t => t). split_and!; [by destruct d| |done|by left].
        intros t Ht. cbn [fst snd genres movies reviews]. rewrite ?Hm, ?Ht, ?Em, ?Hv. simpl. by rewrite ?Ho, ?Hfk.
      * exists (fun t => t). split_and!; [by destruct d| |done|by left].
        intros t Ht. cbn [fst snd genres movies reviews]. rewrite ?Hm, ?Ht, ?Em, ?Hv. simpl. by rewrite ?Ho.
    + exists (fun t => t). split_and!; [by destruct d| |done|by left].
      intros t Ht. cbn [fst snd genres movies reviews]. rewrite ?Hm, ?Ht, ?Em, ?Hv. done.
  - exists (delete_row id). split_and!; [done| | |by right; right].
    + intros t Ht. cbn [fst snd genres movies reviews]. rewrite ?Hm, ?Ht, ?Em. done.
    + intros id' Hne t. by apply get_delete_ne.
Qed.

(** The writes of [review_detail] on two different rows commute. *)
Lemma review_writes_commute a b (fa fb : table Review -> table Review) t :
  a <> b ->
  ((forall t, fa t = t) \/ (exists r, forall t, fa t = save_row a r t) \/ (forall t, fa t = delete_row a t)) ->
  ((forall t, fb t = t) \/ (exists r, forall t, fb t = save_row b r t) \/ (forall t, fb t = delete_row b t)) ->
  fb (fa t) = fa (fb t).
Proof.
  intros Hne [Ia|[[ra Ia]|Ia]] [Ib|[[rb Ib]|Ib]]; rewrite ?Ia, ?Ib; try done.
  all: first [apply save_save_ne | apply save_delete_ne | symmetry; apply save_delete_ne
             | apply delete_delete]; congruence.
Qed.

(** C31 [safety]: requests on two different reviews commute: whichever
    of the two [GET], [PUT] or [DELETE] requests is served first, each gets
    the response it gets when served alone, and the database ends the
    same. *)
Theorem review_detail_commute a b req1 req2 d :
  a <> b ->
  (review_detail b req2 (review_detail a req1 d).2).1 = (review_detail b req2 d).1 /\
  (review_detail a req1 (review_detail b req2 d).2).1 = (review_detail a req1 d).1 /\
  (review_detail b req2 (review_detail a req1 d).2).2 = (review_detail a req1 (review_detail b req2 d).2).2.
Proof.
  intros Hne.
  destruct (review_detail_local a req1 d) as (fa & Ha & Hla & Hpa & Sa).
  destruct (review_detail_local b req2 d) as (fb & Hb & Hlb & Hpb & Sb).
  rewrite Ha, Hb.
  destruct (Hlb (fa (reviews d))) as [E1 E2]; [apply Hpa; congruence|].
  destruct (Hla (fb (reviews d))) as [E3 E4]; [apply Hpb; congruence|].
  rewrite E1, E2, E3, E4. split_and!; [done|done|].
  f_equal. by apply (review_writes_commute a b).
Qed.

(** ** The application invariant *)

(** Every stored review holds what [ReviewSerializer] admits. *)
Definition reviews_admissible (d : db) : Prop :=
  forall id r, get_row id (reviews d) = Some r -> review_admissible r.

Definition app_inv (d : db) : Prop := db_wf d = true /\ reviews_admissible d.

Lemma reviews_admissible_create d r :
  table_wf (reviews d) = true -> reviews_admissible d -> review_admissible r ->
  forall id r', get_row id (create_row r (reviews d)).2 = Some r' -> review_admissible r'.
Proof.
  intros Hwf Hd Hr id r'. destruct (Z.eq_dec id (next_id (reviews d))) as [->|Hne].
  - replace (next_id (reviews d)) with (create_row r (reviews d)).1 by done.
    rewrite get_create_eq by done. by intros [= <-].
  - rewrite get_create_ne by done. apply Hd.
Qed.

Lemma reviews_admissible_save d id r :
  reviews_admissible d -> review_admissible r ->
  forall id' r', get_row id' (save_row id r (reviews d)) = Some r' -> review_admissible r'.
Proof.
  intros Hd Hr id' r'. destruct (Z.eq_dec id id') as [<-|Hne].
  - rewrite get_save_eq. destruct (get_row id (reviews d)); simpl; [by intros [= <-]|done].
  - rewrite get_save_ne by done. apply Hd.
Qed.

Lemma reviews_admissible_delete d id :
  reviews_admissible d -> reviews_admissible (review_delete id d).
Proof.
  intros Hd id' r'. simpl. destruct (Z.eq_dec id id') as [<-|Hne].
  - by rewrite get_delete_eq.
  - rewrite get_delete_ne by done. apply Hd.
Qed.

Lemma review_create_inv mid req d : app_inv d -> app_inv (review_create mid req d).2.
Proof.
  intros Hinv. pose proof Hinv as [Hwf Hadm]. unfold review_create, api_view.
  destruct (existsb _ _); [|done]. destruct (review_run_validation _) as [[c s]|] eqn:Hv; [|done].
  unfold review_serializer_create. destruct (Models.review_create _ d) as [[id' d']|[]] eqn:Hc; [|done|done].
  simpl. split; [eapply review_create_wf; eauto|].
  revert Hc. unfold Models.review_create. destruct (sqlite_int (score _)) eqn:Ho; [|done].
  simpl in Ho. destruct (is_some _); [|done]. intros [= <- <-].
  intros id0 r0 Hget.
  eapply (reviews_admissible_create d (mkReview c s mid)); [apply (db_wf_tables d Hwf)|done| |exact Hget].
  by eapply review_run_validation_admissible.
Qed.

Lemma review_detail_inv id req d : app_inv d -> app_inv (review_detail id req d).2.
Proof.
  intros Hinv. pose proof Hinv as [Hwf Hadm]. unfold review_detail, api_view.
  destruct (existsb _ _); [|done]. destruct (get_row id (reviews d)) as [r|] eqn:Hr; [|done].
  destruct (req_method req); try done;
    try (split; [by apply review_delete_wf|by apply reviews_admissible_delete]).
  destruct (review_run_validation (req_body req)) as [[c s]|] eqn:Hv; [|done].
  unfold review_serializer_update. destruct (review_save _ _ d) as [d'|[]] eqn:Hs; [|done|done].
  simpl. split; [eapply review_save_wf; eauto|].
  revert Hs. unfold review_save. destruct (sqlite_int (score _)) eqn:Ho; [|done].
  simpl in Ho. destruct (is_some _); [|done]. intros [= <-].
  intros id0 r0 Hget. eapply reviews_admissible_save; [done| |exact Hget].
  by eapply review_run_validation_admissible.
Qed.

(** The read views do not write. *)
Lemma read_views_pure id req d :
  (genre_list req d).2 = d /\ (genre_detail id req d).2 = d /\
  (movie_list req d).2 = d /\ (movie_detail id req d).2 = d.
Proof.
  unfold genre_list, genre_detail, movie_list, movie_detail, api_view.
  destruct (existsb _ _); [|done]. simpl.
  destruct (get_row id (genres d)), (get_row id (movies d)); done.
Qed.

(** ** Witnesses *)

(** The sample catalogue with one review of movie 3. *)
Definition sample_db_reviewed : db :=
  mkDB (genres sample_db) (movies sample_db) (mk_table [(1, mkReview (txt "nice") 4 3)] 2).

(** A score of [2 ^ 31], a score a 32-bit column would refuse, is stored and read back. *)
Lemma review_create_then_get_witness :
  db_wf sample_db = true /\ is_Some (get_row 3 (movies sample_db)) /\
  review_is_valid (body_of (txt "great") 2147483648) = Ok (txt "great", 2147483648) /\
  sqlite_int 2147483648 = true /\
  exists d',
    review_create 3 (mkRequest POST (body_of (txt "great") 2147483648)) sample_db = (ok (message msg_created), d') /\
    forall data', review_detail (next_id (reviews sample_db)) (mkRequest GET data') d' =
                  (ok (review_body (txt "great") 2147483648), d').
Proof.
  assert (H1 : db_wf sample_db = true) by (vm_compute; reflexivity).
  assert (H2 : is_Some (get_row 3 (movies sample_db))) by (vm_compute; eexists; reflexivity).
  assert (H3 : review_is_valid (body_of (txt "great") 2147483648) = Ok (txt "great", 2147483648))
    by (vm_compute; reflexivity).
  assert (H4 : sqlite_int 2147483648 = true) by reflexivity.
  split_and!; [exact H1|exact H2|exact H3|exact H4|exact (review_create_then_get _ _ _ _ _ H1 H2 H3 H4)].
Defined.

Lemma review_update_then_get_witness :
  db_wf sample_db_reviewed = true /\
  get_row 1 (reviews sample_db_reviewed) = Some (mkReview (txt "nice") 4 3) /\
  review_is_valid (body_of (txt "better") 9) = Ok (txt "better", 9) /\ sqlite_int 9 = true /\
  exists d',
    review_detail 1 (mkRequest PUT (body_of (txt "better") 9)) sample_db_reviewed = (ok (message msg_updated), d') /\
    get_row 1 (reviews d') = Some (mkReview (txt "better") 9 3) /\
    forall data', review_detail 1 (mkRequest GET data') d' = (ok (review_body (txt "better") 9), d').
Proof.
  assert (H1 : db_wf sample_db_reviewed = true) by (vm_compute; reflexivity).
  assert (H2 : get_row 1 (reviews sample_db_reviewed) = Some (mkReview (txt "nice") 4 3)) by reflexivity.
  assert (H3 : review_is_valid (body_of (txt "better") 9) = Ok (txt "better", 9)) by (vm_compute; reflexivity).
  assert (H4 : sqlite_int 9 = true) by reflexivity.
  split_and!; [exact H1|exact H2|exact H3|exact H4|exact (review_update_then_get _ _ _ _ _ _ H1 H2 H3 H4)].
Defined.

Lemma review_delete_then_get_witness :
  get_row 1 (reviews sample_db_reviewed) = Some (mkReview (txt "nice") 4 3) /\
  review_detail 1 (mkRequest GET []) (review_delete 1 sample_db_reviewed) =
    (not_found, review_delete 1 sample_db_reviewed).
Proof.
  assert (H : get_row 1 (reviews sample_db_reviewed) = Some (mkReview (txt "nice") 4 3)) by reflexivity.
  split; [exact H|exact (proj2 (review_delete_then_get _ _ _ [] [] H))].
Defined.


Lemma review_create_invalid_witness :
  review_is_valid (body_of long_text 5) = Err [(txt "content", [MaxLength 100])] /\
  review_create 3 (mkRequest POST (body_of long_text 5)) sample_db =
    (bad_request [(txt "content", [MaxLength 100])], sample_db).
Proof.
  assert (H : review_is_valid (body_of long_text 5) = Err [(txt "content", [MaxLength 100])])
    by (vm_compute; reflexivity).
  split; [exact H|exact (proj1 (review_create_invalid _ _ _ _ H))].
Defined.

Lemma review_create_missing_movie_witness :
  get_row 99 (movies sample_db) = None /\
  review_is_valid (body_of (txt "great") 5) = Ok (txt "great", 5) /\
  review_create 99 (mkRequest POST (body_of (txt "great") 5)) sample_db = (server_error, sample_db).
Proof.
  assert (H1 : get_row 99 (movies sample_db) = None) by reflexivity.
  assert (H2 : review_is_valid (body_of (txt "great") 5) = Ok (txt "great", 5)) by (vm_compute; reflexivity).
  split_and!; [exact H1|exact H2|exact (review_create_missing_movie _ _ _ _ _ H1 H2)].
Defined.

Lemma views_method_not_allowed_witness :
  review_detail 1 (mkRequest PATCH []) sample_db_reviewed =
    (method_not_allowed PATCH, sample_db_reviewed).
Proof.
  exact (proj2 (proj2 (views_method_not_allowed sample_db_reviewed 1 (mkRequest PATCH []))) (or_intror eq_refl)).
Defined.

Lemma genre_detail_movies_witness :
  db_wf sample_db = true /\ get_row 1 (genres sample_db) = Some drama /\
  exists items,
    genre_detail 1 (mkRequest GET []) sample_db =
      (ok (JObj [(txt "id", JInt 1); (txt "movies", JArr items); (txt "name", JStr (name drama))]), sample_db) /\
    forall k m, movie_serializer k m ∈ items <-> get_row k (movies sample_db) = Some m /\ genre_id m = 1.
Proof.
  assert (H1 : db_wf sample_db = true) by (vm_compute; reflexivity).
  assert (H2 : get_row 1 (genres sample_db) = Some drama) by reflexivity.
  split_and!; [exact H1|exact H2|exact (genre_detail_movies _ _ _ (mkRequest GET []) H1 H2 eq_refl)].
Defined.

Lemma deleted_review_id_not_reused_witness :
  db_wf sample_db_reviewed = true /\
  get_row 1 (reviews sample_db_reviewed) = Some (mkReview (txt "nice") 4 3) /\
  is_Some (get_row 3 (movies sample_db_reviewed)) /\
  review_is_valid (body_of (txt "great") 5) = Ok (txt "great", 5) /\ sqlite_int 5 = true /\
  exists d2,
    review_create 3 (mkRequest POST (body_of (txt "great") 5)) (review_delete 1 sample_db_reviewed) =
      (ok (message msg_created), d2) /\
    review_detail 1 (mkRequest GET []) d2 = (not_found, d2).
Proof.
  assert (H1 : db_wf sample_db_reviewed = true) by (vm_compute; reflexivity).
  assert (H2 : get_row 1 (reviews sample_db_reviewed) = Some (mkReview (txt "nice") 4 3)) by reflexivity.
  assert (H3 : is_Some (get_row 3 (movies sample_db_reviewed))) by (vm_compute; eexists; reflexivity).
  assert (H4 : review_is_valid (body_of (txt "great") 5) = Ok (txt "great", 5)) by (vm_compute; reflexivity).
  assert (H5 : sqlite_int 5 = true) by reflexivity.
  split_and!; [exact H1|exact H2|exact H3|exact H4|exact H5|].
  exact (deleted_review_id_not_reused _ _ _ _ _ _ _ H1 H2 H3 H4 H5).
Defined.

Lemma list_views_complete_witness :
  db_wf sample_db = true /\
  exists gs ms,
    genre_list (mkRequest GET []) sample_db = (ok (JArr gs), sample_db) /\
    movie_list (mkRequest GET []) sample_db = (ok (JArr ms), sample_db) /\
    (forall k g, genre_serializer k g ∈ gs <-> get_row k (genres sample_db) = Some g) /\
    (forall k m, movie_serializer k m ∈ ms <-> get_row k (movies sample_db) = Some m) /\
    NoDup gs /\ NoDup ms.
Proof.
  assert (H : db_wf sample_db = true) by (vm_compute; reflexivity).
  split; [exact H|exact (list_views_complete _ (mkRequest GET []) H eq_refl)].
Defined.

(** The body of the specification's example with the two members the
    review shape never accepts, [movie_id] and [id]. *)
Lemma review_extra_members_ignored_witness :
  Forall (fun kv => kv.1 <> txt "content" /\ kv.1 <> txt "score")
    [(txt "movie_id", JInt 1); (txt "id", JInt 7)] /\
  review_create 3 (mkRequest POST (body_of (txt "nice") 4 ++ [(txt "movie_id", JInt 1); (txt "id", JInt 7)] ++ []))
    sample_db = review_create 3 (mkRequest POST (body_of (txt "nice") 4 ++ [])) sample_db.
Proof.
  assert (H : Forall (fun kv => kv.1 <> txt "content" /\ kv.1 <> txt "score")
                [(txt "movie_id", JInt 1); (txt "id", JInt 7)])
    by (repeat constructor; simpl; discriminate).
  split; [exact H|exact (proj1 (review_extra_members_ignored sample_db 3 1 _ _ [] H))].
Defined.

Lemma form_body_equiv_witness :
  Z.of_nat (length (py_str_int 4)) <= MAX_STRING_LENGTH /\
  review_create 3 (mkRequest POST (form_data [(txt "content", txt "nice"); (txt "score", txt "4")])) sample_db =
    review_create 3 (mkRequest POST (body_of (txt "nice") 4)) sample_db.
Proof.
  assert (H : Z.of_nat (length (py_str_int 4)) <= MAX_STRING_LENGTH) by (vm_compute; discriminate).
  split; [exact H|exact (proj1 (form_body_equiv sample_db 3 1 (txt "nice") 4 H))].
Defined.

Lemma review_write_missing_fields_witness :
  obj_get (txt "content") [] = None /\ obj_get (txt "score") [] = None /\
  get_row 1 (reviews sample_db_reviewed) = Some (mkReview (txt "nice") 4 3) /\
  review_detail 1 (mkRequest PUT []) sample_db_reviewed =
    (mkResponse 400 (BJson (JObj [(txt "content", JArr [JStr (txt "This field is required.")]);
                                  (txt "score", JArr [JStr (txt "This field is required.")])])),
     sample_db_reviewed).
Proof.
  assert (H1 : obj_get (txt "content") [] = None) by reflexivity.
  assert (H2 : obj_get (txt "score") [] = None) by reflexivity.
  assert (H3 : get_row 1 (reviews sample_db_reviewed) = Some (mkReview (txt "nice") 4 3)) by reflexivity.
  split_and!; [exact H1|exact H2|exact H3|].
  exact (proj2 (review_write_missing_fields sample_db_reviewed 3 1 _ [] H1 H2) H3).
Defined.

(** A list as the body of [POST movies/3/reviews/]. *)
Lemma review_write_non_object_witness :
  (forall o, JArr [JInt 1] <> JObj o) /\
  review_create 3 (mkReq POST (JArr [JInt 1])) sample_db =
    (bad_request [(txt "non_field_errors", [InvalidData (txt "list")])], sample_db) /\
  errors_json [(txt "non_field_errors", [InvalidData (txt "list")])] =
    JObj [(txt "non_field_errors", JArr [JStr (txt "Invalid data. Expected a dictionary, but got list.")])].
Proof.
  assert (H : forall o, JArr [JInt 1] <> JObj o) by discriminate.
  split_and!; [exact H|exact (proj1 (review_write_non_object sample_db 3 1 (mkReview [] 0 0) _ H))|].
  vm_compute. reflexivity.
Defined.

(** A [PUT] of review 1 and a [DELETE] of review 5 commute. *)
Lemma review_detail_commute_witness :
  1 <> 5 /\
  (review_detail 5 (mkRequest DELETE []) (review_detail 1 (mkRequest PUT (body_of (txt "fine") 3)) sample_db_reviewed).2).2 =
  (review_detail 1 (mkRequest PUT (body_of (txt "fine") 3)) (review_detail 5 (mkRequest DELETE []) sample_db_reviewed).2).2.
Proof.
  assert (H : 1 <> 5) by lia.
  split; [exact H|exact (proj2 (proj2 (review_detail_commute 1 5 _ _ sample_db_reviewed H)))].
Defined.

(** [2 ^ 63] fails the insert, one less is stored. *)
Lemma review_create_score_range_witness :
  is_Some (get_row 3 (movies sample_db)) /\
  review_is_valid (body_of (txt "great") (2 ^ 63)) = Ok (txt "great", 2 ^ 63) /\
  sqlite_int (2 ^ 63) = false /\
  review_create 3 (mkRequest POST (body_of (txt "great") (2 ^ 63))) sample_db = (server_error, sample_db) /\
  review_is_valid (body_of (txt "great") (2 ^ 63 - 1)) = Ok (txt "great", 2 ^ 63 - 1) /\
  sqlite_int (2 ^ 63 - 1) = true /\
  review_create 3 (mkRequest POST (body_of (txt "great") (2 ^ 63 - 1))) sample_db =
    (ok (message msg_created),
     mkDB (genres sample_db) (movies sample_db)
       (create_row (mkReview (txt "great") (2 ^ 63 - 1) 3) (reviews sample_db)).2).
Proof.
  assert (H1 : is_Some (get_row 3 (movies sample_db))) by (vm_compute; eexists; reflexivity).
  assert (H2 : review_is_valid (body_of (txt "great") (2 ^ 63)) = Ok (txt "great", 2 ^ 63)) by (vm_compute; reflexivity).
  assert (H3 : sqlite_int (2 ^ 63) = false) by reflexivity.
  assert (H4 : review_is_valid (body_of (txt "great") (2 ^ 63 - 1)) = Ok (txt "great", 2 ^ 63 - 1))
    by (vm_compute; reflexivity).
  assert (H5 : sqlite_int (2 ^ 63 - 1) = true) by reflexivity.
  split_and!; [exact H1|exact H2|exact H3|exact (proj2 (review_create_score_range _ _ _ _ _ H1 H2) H3)
              |exact H4|exact H5|exact (proj1 (review_create_score_range _ _ _ _ _ H1 H4) H5)].
Defined.

Lemma review_update_score_overflow_witness :
  get_row 1 (reviews sample_db_reviewed) = Some (mkReview (txt "nice") 4 3) /\
  review_is_valid (body_of (txt "nice") (2 ^ 64)) = Ok (txt "nice", 2 ^ 64) /\
  sqlite_int (2 ^ 64) = false /\
  review_detail 1 (mkRequest PUT (body_of (txt "nice") (2 ^ 64))) sample_db_reviewed =
    (server_error, sample_db_reviewed).
Proof.
  assert (H1 : get_row 1 (reviews sample_db_reviewed) = Some (mkReview (txt "nice") 4 3)) by reflexivity.
  assert (H2 : review_is_valid (body_of (txt "nice") (2 ^ 64)) = Ok (txt "nice", 2 ^ 64)) by (vm_compute; reflexivity).
  assert (H3 : sqlite_int (2 ^ 64) = false) by reflexivity.
  split_and!; [exact H1|exact H2|exact H3|exact (review_update_score_overflow _ _ _ _ _ _ H1 H2 H3)].
Defined.

End Views.
