(* ===== verification/Urls.v ===== *)
(** * The URL configuration of [src/movies/urls.py] and the application

    [urlpatterns] lists the six [path(...)] entries in order: each route is
    a sequence of literal pieces and [<int:id>] converters, bound to a view
    by its [name].  Django compiles [path('genres/<int:id>/', ...)] to the
    anchored regular expression [^genres/(?P<id>[0-9]+)/\Z]; [match_route]
    matches it, taking the longest run of ASCII digits for a converter
    (every converter of this file is followed by [/], so the regex engine's
    backtracking has no other choice) and converting it with [int].
    [resolve] returns the first pattern that matches, as Django's resolver
    does; [reverse] builds the path of a pattern with [str] of each id
    ([int_to_url], the converter's [to_url]).

    [route_re] is the language of those regular expressions, in which
    the absence of overlap between the routes is stated; [reverse_name]
    is [reverse] of a name in the [app_name] namespace.  Django releases
    that end the regex with [$] instead of [\Z] also accept a path with a
    final newline ([%0A]); such paths are outside the model.

    [handle] is the whole application on one request: resolve the path
    (Django's 404 page when nothing matches) and call the bound view with
    the captured [id].  The paths are relative to the project's [include]
    of this URL configuration, which is not part of [src/]. *)

From Stdlib Require Import ZArith List Lia.
From stdpp Require Import base list relations.
From S2P Require Import Prelude Json Table Models Fields Serializers Views.
Import ListNotations Table Models Fields Serializers Views.
Open Scope Z_scope.

Module Urls.

Inductive piece := Lit (s : text) | IntConv.

(** The [name=] of each pattern. *)
Inductive view_name :=
  | genre_list_n | genre_detail_n | movie_list_n | movie_detail_n
  | review_create_n | review_detail_n.

#[export] Instance view_name_eq_dec : EqDecision view_name.
Proof. solve_decision. Defined.

Definition urlpatterns : list (list piece * view_name) :=
  [([Lit (txt "genres/")], genre_list_n);
   ([Lit (txt "genres/"); IntConv; Lit (txt "/")], genre_detail_n);
   ([Lit (txt "movies/")], movie_list_n);
   ([Lit (txt "movies/"); IntConv; Lit (txt "/")], movie_detail_n);
   ([Lit (txt "movies/"); IntConv; Lit (txt "/reviews/")], review_create_n);
   ([Lit (txt "reviews/"); IntConv; Lit (txt "/")], review_detail_n)].

Fixpoint strip_prefix (p s : text) : option text :=
  match p, s with
  | [], _ => Some s
  | c :: p', c' :: s' => if c =? c' then strip_prefix p' s' else None
  | _ :: _, [] => None
  end.

(** The longest prefix of ASCII digits ([0-9]) and the rest. *)
Fixpoint take_digits (s : text) : text * text :=
  match s with
  | [] => ([], [])
  | c :: r => if is_digit c then let '(ds, rest) := take_digits r in (c :: ds, rest) else ([], s)
  end.

(** The anchored match of a route; the captured ids in order. *)
Fixpoint match_route (ps : list piece) (s : text) : option (list Z) :=
  match ps with
  | [] => match s with [] => Some [] | _ => None end
  | Lit l :: ps' =>
      match strip_prefix l s with Some r => match_route ps' r | None => None end
  | IntConv :: ps' =>
      let '(ds, rest) := take_digits s in
      match ds with
      | [] => None
      | _ => option_map (cons (digits_value 0 ds)) (match_route ps' rest)
      end
  end.

Fixpoint resolve_in (pats : list (list piece * view_name)) (path : text)
    : option (view_name * list Z) :=
  match pats with
  | [] => None
  | (ps, n) :: pats' =>
      match match_route ps path with
      | Some args => Some (n, args)
      | None => resolve_in pats' path
      end
  end.

(** [django.urls.resolve]. *)
Definition resolve (path : text) : option (view_name * list Z) := resolve_in urlpatterns path.

(** [IntConverter.to_url]: [str(value)] of the id. *)
Definition int_to_url (a : Z) : text := py_str_int a.

Fixpoint reverse_route (ps : list piece) (args : list Z) : text :=
  match ps, args with
  | [], _ => []
  | Lit l :: ps', _ => l ++ reverse_route ps' args
  | IntConv :: ps', a :: args' => int_to_url a ++ reverse_route ps' args'
  | IntConv :: ps', [] => reverse_route ps' []
  end.

Fixpoint route_of (n : view_name) (pats : list (list piece * view_name)) : list piece :=
  match pats with
  | [] => []
  | (ps, n') :: pats' => if decide (n = n') then ps else route_of n pats'
  end.

(** [django.urls.reverse('movies:<name>', kwargs=...)]. *)
Definition reverse (n : view_name) (args : list Z) : text := reverse_route (route_of n urlpatterns) args.

(** The view a name is bound to, called with the captured [id]; a missing
    argument would be Python's [TypeError], a 500. *)
Definition call_view (n : view_name) (args : list Z) : view :=
  match n, args with
  | genre_list_n, [] => genre_list
  | genre_detail_n, [id] => genre_detail id
  | movie_list_n, [] => movie_list
  | movie_detail_n, [id] => movie_detail id
  | review_create_n, [id] => review_create id
  | review_detail_n, [id] => review_detail id
  | _, _ => fun _ d => (server_error, d)
  end.

(** Django's [page_not_found] when no pattern matches. *)
Definition django_not_found : response :=
  mkResponse 404 (BHtml (txt "<h1>Not Found</h1><p>The requested resource was not found on this server.</p>")).

(** One request to the application. *)
Definition handle (path : text) (req : request) (d : db) : response * db :=
  match resolve path with
  | None => (django_not_found, d)
  | Some (n, args) => call_view n args req d
  end.

(** ** Lemmas *)

Lemma take_digits_app ds rest :
  Forall (fun c => is_digit c = true) ds ->
  match rest with [] => True | c :: _ => is_digit c = false end ->
  take_digits (ds ++ rest) = (ds, rest).
Proof.
  intros Hds Hrest. induction Hds as [|c ds Hc Hds IH]; simpl.
  - destruct rest as [|c r]; simpl; [done|]. by rewrite Hrest.
  - by rewrite Hc, IH.
Qed.

(** [str(id)] of a non-negative id is a non-empty run of digits whose [int]
    is the id. *)
Lemma py_str_int_nonneg id :
  0 <= id ->
  py_str_int id <> [] /\ Forall (fun c => is_digit c = true) (py_str_int id) /\
  digits_value 0 (py_str_int id) = id.
Proof.
  intros Hid. unfold py_str_int.
  destruct (digits_fuel_spec _ _ (py_str_int_fuel id)) as (Hne & Hd & Hv).
  destruct (Z.ltb_spec id 0); [lia|]. simpl. rewrite Z.abs_eq in * by done.
  split_and!; [done| |done].
  eapply Forall_impl; [exact Hd|]. simpl. intros c Hc. unfold is_digit.
  apply andb_true_iff. rewrite !Z.leb_le. lia.
Qed.

Definition arity (n : view_name) : nat :=
  match n with genre_list_n | movie_list_n => 0 | _ => 1 end.

(** [app_name]: the namespace of the pattern names. *)
Definition app_name : text := txt "movies".

(** The [name=] of each pattern, as text. *)
Definition url_name (n : view_name) : text :=
  match n with
  | genre_list_n => txt "genre_list" | genre_detail_n => txt "genre_detail"
  | movie_list_n => txt "movie_list" | movie_detail_n => txt "movie_detail"
  | review_create_n => txt "review_create" | review_detail_n => txt "review_detail"
  end.

Definition view_names : list view_name :=
  [genre_list_n; genre_detail_n; movie_list_n; movie_detail_n; review_create_n; review_detail_n].

(** [reverse('movies:<name>', args=...)]: the namespaced name selects the
    pattern; Django raises [NoReverseMatch] ([None]) for an unknown name,
    a wrong number of arguments, or an argument whose [str] the
    converter's regex [[0-9]+] does not match, that is a negative id. *)
Definition reverse_name (viewname : text) (args : list Z) : option text :=
  match List.find (fun n => text_eqb viewname (app_name ++ txt ":" ++ url_name n)) view_names with
  | Some n =>
      if (length args =? arity n)%nat && forallb (fun a => 0 <=? a) args
      then Some (reverse n args) else None
  | None => None
  end.

Ltac route_id id :=
  let Hid := fresh in
  destruct (py_str_int_nonneg id) as (Hne & Hd & Hv); [lia|];
  unfold resolve, reverse; simpl; unfold int_to_url;
  set (S := py_str_int id) in *; clearbody S;
  repeat (rewrite take_digits_app by (done || (simpl; reflexivity)));
  destruct S as [|c r]; [done|]; simpl; simpl in Hv; rewrite Hv; reflexivity.

Lemma resolve_reverse_route n args :
  Forall (fun a => 0 <= a) args -> length args = arity n ->
  resolve (reverse n args) = Some (n, args).
Proof.
  intros Hargs Hlen.
  destruct args as [|id [|? ?]]; destruct n; simpl in Hlen; try lia; try reflexivity;
    apply Forall_inv in Hargs; route_id id.
Qed.

(** C21 [roundtrip]: the path [reverse] builds for a pattern and
    non-negative ids resolves back to that pattern and those ids. *)
Theorem resolve_reverse n args :
  Forall (fun a => 0 <= a) args -> length args = arity n ->
  resolve (reverse n args) = Some (n, args).
Proof. apply resolve_reverse_route. Qed.

Lemma reverse_name_url_name n args :
  reverse_name (app_name ++ txt ":" ++ url_name n) args =
    if (length args =? arity n)%nat && forallb (fun a => 0 <=? a) args
    then Some (reverse n args) else None.
Proof. by destruct n. Qed.

(** A namespaced name that reverses gives a path that resolves back to
    its pattern and arguments. *)
Lemma reverse_name_resolve q args p :
  reverse_name q args = Some p ->
  exists n, q = app_name ++ txt ":" ++ url_name n /\ resolve p = Some (n, args).
Proof.
  unfold reverse_name. destruct (List.find _ _) as [n|] eqn:Hf; [|done].
  apply find_some in Hf as [_ Hq%text_eqb_eq].
  destruct ((length args =? arity n)%nat && _) eqn:Hc; [|done]. intros [= <-].
  apply andb_true_iff in Hc as [Hlen%Nat.eqb_eq Hpos]. rewrite forallb_forall in Hpos.
  exists n. split; [done|]. apply resolve_reverse_route; [|done].
  apply List.Forall_forall. intros a Ha. apply Z.leb_le. by apply Hpos.
Qed.

(** ** The regular expressions Django compiles the routes to

    [path(route, ...)] is compiled to the anchored regex of its route: a
    literal piece matches itself, [<int:id>] is the group [(?P<id>[0-9]+)]
    whose match is converted by [IntConverter.to_python], [int(value)],
    and the regex ends with [\Z].  [route_re ps s args] is the language of
    that regex with its captured arguments, any split of [s] the pieces
    accept; it states that the six routes of this URLconf never overlap. *)
Inductive route_re : list piece -> text -> list Z -> Prop :=
  | re_end : route_re [] [] []
  | re_lit l ps s args : route_re ps s args -> route_re (Lit l :: ps) (l ++ s) args
  | re_int ds ps s args :
      ds <> [] -> Forall (fun c => is_digit c = true) ds -> route_re ps s args ->
      route_re (IntConv :: ps) (ds ++ s) (digits_value 0 ds :: args).

Lemma strip_prefix_Some l s r : strip_prefix l s = Some r -> s = l ++ r.
Proof.
  revert s; induction l as [|c l IH]; intros [|c' s]; simpl; try congruence.
  destruct (Z.eqb_spec c c'); [subst|done]. intros H. f_equal. by apply IH.
Qed.

Lemma take_digits_spec s ds rest :
  take_digits s = (ds, rest) ->
  s = ds ++ rest /\ Forall (fun c => is_digit c = true) ds /\
  match rest with [] => True | c :: _ => is_digit c = false end.
Proof.
  revert ds rest; induction s as [|c s IH]; intros ds rest; simpl.
  - by intros [= <- <-].
  - destruct (is_digit c) eqn:Hc.
    + destruct (take_digits s) as [ds' rest'] eqn:Ht. intros [= <- <-].
      destruct (IH _ _ eq_refl) as (-> & Hd & Hr). split_and!; [done|by constructor|done].
    + intros [= <- <-]. done.
Qed.

Lemma match_route_sound ps s args : match_route ps s = Some args -> route_re ps s args.
Proof.
  revert s args; induction ps as [|[l|] ps IH]; intros s args; simpl.
  - destruct s; [intros [= <-]; constructor|done].
  - destruct (strip_prefix l s) as [r|] eqn:Hs; [|done]. intros H.
    apply strip_prefix_Some in Hs as ->. constructor. by apply IH.
  - destruct (take_digits s) as [ds rest] eqn:Ht.
    destruct (take_digits_spec _ _ _ Ht) as (-> & Hd & _).
    destruct ds as [|c ds]; [done|]. destruct (match_route ps rest) eqn:Hm; [|done].
    intros [= <-]. apply (re_int (c :: ds)); [done|done|by apply IH].
Qed.

(** The shape of a path a route's regex accepts, and [resolve] on it. *)
Ltac route_shape :=
  repeat match goal with
         | H : route_re (_ :: _) _ _ |- _ => inversion H; subst; clear H
         | H : route_re [] _ _ |- _ => inversion H; subst; clear H
         end;
  unfold resolve; simpl;
  repeat (rewrite take_digits_app by (done || (simpl; reflexivity)));
  repeat match goal with Hne : ?ds <> [] |- _ => destruct ds; [done|clear Hne] end;
  reflexivity.

Lemma route_re_resolve ps n path a :
  In (ps, n) urlpatterns -> route_re ps path a -> resolve path = Some (n, a).
Proof.
  intros Hin Hre. simpl in Hin.
  repeat (destruct Hin as [[= <- <-]|Hin]; [route_shape|]). destruct Hin.
Qed.

(** C24 [safety]: the routes are unambiguous: a path matches the regex
    of at most one pattern of [urlpatterns], with one list of ids, and
    [resolve] returns that pattern whatever its position in the list. *)
Theorem urlpatterns_unambiguous path ps1 n1 a1 ps2 n2 a2 :
  In (ps1, n1) urlpatterns -> In (ps2, n2) urlpatterns ->
  route_re ps1 path a1 -> route_re ps2 path a2 ->
  n1 = n2 /\ a1 = a2 /\ resolve path = Some (n1, a1).
Proof.
  intros H1 H2 R1 R2.
  pose proof (route_re_resolve _ _ _ _ H1 R1) as E1.
  rewrite (route_re_resolve _ _ _ _ H2 R2) in E1. injection E1 as -> ->.
  split_and!; [done|done|]. exact (route_re_resolve _ _ _ _ H2 R2).
Qed.

(** ** The application *)

Lemma call_view_inv n args req d : app_inv d -> app_inv (call_view n args req d).2.
Proof.
  intros Hinv. destruct n, args as [|a [|? ?]]; simpl; try done.
  all: try (apply review_create_inv; done); try (apply review_detail_inv; done).
  - by rewrite (proj1 (read_views_pure 0 req d)).
  - by rewrite (proj1 (proj2 (read_views_pure a req d))).
  - by rewrite (proj1 (proj2 (proj2 (read_views_pure 0 req d)))).
  - by rewrite (proj2 (proj2 (proj2 (read_views_pure a req d)))).
Qed.

Lemma handle_inv path req d : app_inv d -> app_inv (handle path req d).2.
Proof.
  intros Hinv. unfold handle. destruct (resolve path) as [[n args]|]; [|done].
  by apply call_view_inv.
Qed.

(** One request served, whatever its path, method and body. *)
Inductive app_step : db -> db -> Prop :=
  | serve path req d : app_step d (handle path req d).2.

(** C8 [invariant]: from a database with referential integrity whose
    reviews are admissible, any sequence of requests keeps both: no
    request leaves an orphan movie or review, or a review the serializer
    would not accept. *)
Theorem requests_preserve_inv d0 d : app_inv d0 -> rtc app_step d0 d -> app_inv d.
Proof.
  intros Hinv Hsteps. induction Hsteps as [|x y z Hstep _ IH]; [done|].
  apply IH. destruct Hstep. by apply handle_inv.
Qed.

(** [DELETE reviews/<id>/] of a stored review, over HTTP. *)
Lemma http_delete_review d k r :
  db_wf d = true -> get_row k (reviews d) = Some r ->
  handle (reverse review_detail_n [k]) (mkRequest DELETE []) d = (ok (message msg_deleted), review_delete k d).
Proof.
  intros Hwf Hr. destruct (db_wf_tables d Hwf) as (_ & _ & Hrt).
  pose proof (get_row_lt_next k r _ Hrt Hr) as Hlt.
  assert (Hpos : 0 < k).
  { apply (table_wf_key (reviews d)); [done|]. apply (list_elem_of_fmap_2 fst _ (k, r)).
    by apply in_rows_get. }
  unfold handle. rewrite resolve_reverse_route by (repeat constructor; lia). simpl.
  unfold review_detail. rewrite api_view_allowed by done. simpl. by rewrite Hr.
Qed.

(** C29 [liveness]: from any state of the application invariant, all
    reviews can be removed through the API: the requests
    [DELETE reviews/<id>/], one per stored review, reach a state with no
    review, with the genres and movies untouched. *)
Theorem reviews_can_be_emptied d :
  app_inv d ->
  exists d', rtc app_step d d' /\ rows (reviews d') = [] /\
             genres d' = genres d /\ movies d' = movies d.
Proof.
  intros Hinv. remember (rows (reviews d)) as l eqn:Hl. revert d Hinv Hl.
  induction l as [|[k r] rest IH]; intros d Hinv Hl.
  - exists d. split_and!; [constructor|done|done|done].
  - pose proof Hinv as [Hwf _].
    destruct (db_wf_tables d Hwf) as (_ & _ & Hrt).
    assert (Hr : get_row k (reviews d) = Some r) by (apply in_rows_get; [done|]; rewrite <- Hl; left).
    pose proof (http_delete_review d k r Hwf Hr) as Hstep.
    destruct (IH (review_delete k d)) as (d' & Hs & He & Hg & Hm).
    + pose proof (handle_inv (reverse review_detail_n [k]) (mkRequest DELETE []) d Hinv) as H.
      by rewrite Hstep in H.
    + simpl. symmetry. by apply (delete_row_head (reviews d) k r).
    + exists d'. split_and!; [|done|done|done].
      eapply rtc_l; [|exact Hs].
      replace (review_delete k d) with (handle (reverse review_detail_n [k]) (mkRequest DELETE []) d).2
        by (by rewrite Hstep).
      constructor.
Qed.

(** C2 [roundtrip]: over HTTP, a [POST] of a valid review to
    [movies/<id>/reviews/] of an existing movie, with a score the
    store's [INTEGER] column holds, answers the creation
    message, and a [GET] of [reviews/<new id>/] returns the validated
    content and score. *)
Theorem http_create_then_get d mid data c s :
  db_wf d = true -> is_Some (get_row mid (movies d)) -> review_is_valid data = Ok (c, s) ->
  sqlite_int s = true ->
  exists d',
    handle (reverse review_create_n [mid]) (mkRequest POST data) d = (ok (message msg_created), d') /\
    handle (reverse review_detail_n [next_id (reviews d)]) (mkRequest GET []) d' =
      (ok (review_body c s), d').
Proof.
  intros Hwf Hm Hv Hs. destruct (db_wf_tables d Hwf) as (_ & Hmv & Hr).
  destruct (review_create_get_step d mid data c s Hwf Hm Hv Hs) as (d' & Hc & Hg).
  exists d'. unfold handle.
  destruct Hm as [m Hm]. pose proof (get_row_lt_next mid m _ Hmv Hm).
  assert (0 < next_id (reviews d)) by (unfold table_wf in Hr; apply andb_true_iff in Hr as [Hr _]; lia).
  rewrite !resolve_reverse_route by (repeat constructor; lia). simpl. split; [done|apply Hg].
Qed.

(** ** Witnesses *)

Lemma resolve_reverse_witness :
  Forall (fun a => 0 <= a) [3] /\ length [3] = arity review_create_n /\
  resolve (reverse review_create_n [3]) = Some (review_create_n, [3]).
Proof.
  assert (H1 : Forall (fun a => 0 <= a) [3]) by (repeat constructor; lia).
  assert (H2 : length [3] = arity review_create_n) by reflexivity.
  split_and!; [exact H1|exact H2|exact (resolve_reverse _ _ H1 H2)].
Defined.

Lemma sample_db_inv : app_inv sample_db.
Proof. split; [vm_compute; reflexivity|]. intros id r H. discriminate H. Qed.

Lemma requests_preserve_inv_witness :
  app_inv sample_db /\
  rtc app_step sample_db (handle (txt "movies/3/reviews/") (mkRequest POST (body_of (txt "nice") 4)) sample_db).2 /\
  app_inv (handle (txt "movies/3/reviews/") (mkRequest POST (body_of (txt "nice") 4)) sample_db).2.
Proof.
  assert (H1 := sample_db_inv).
  assert (H2 : rtc app_step sample_db
                 (handle (txt "movies/3/reviews/") (mkRequest POST (body_of (txt "nice") 4)) sample_db).2)
    by (apply rtc_once; constructor).
  split_and!; [exact H1|exact H2|exact (requests_preserve_inv _ _ H1 H2)].
Defined.

(** The example of the specification: [POST movies/3/reviews/] with
    [{"content": "nice", "score": 4}] answers the creation message, and
    [GET reviews/1/] then returns [{"content": "nice", "score": 4}]. *)
Lemma http_create_then_get_witness :
  db_wf sample_db = true /\ is_Some (get_row 3 (movies sample_db)) /\
  review_is_valid (body_of (txt "nice") 4) = Ok (txt "nice", 4) /\ sqlite_int 4 = true /\
  reverse review_create_n [3] = txt "movies/3/reviews/" /\
  reverse review_detail_n [next_id (reviews sample_db)] = txt "reviews/1/" /\
  exists d',
    handle (reverse review_create_n [3]) (mkRequest POST (body_of (txt "nice") 4)) sample_db =
      (ok (message msg_created), d') /\
    handle (reverse review_detail_n [next_id (reviews sample_db)]) (mkRequest GET []) d' =
      (ok (review_body (txt "nice") 4), d').
Proof.
  assert (H1 : db_wf sample_db = true) by (vm_compute; reflexivity).
  assert (H2 : is_Some (get_row 3 (movies sample_db))) by (vm_compute; eexists; reflexivity).
  assert (H3 : review_is_valid (body_of (txt "nice") 4) = Ok (txt "nice", 4)) by (vm_compute; reflexivity).
  assert (H4 : sqlite_int 4 = true) by reflexivity.
  split_and!; [exact H1|exact H2|exact H3|exact H4|vm_compute; reflexivity|vm_compute; reflexivity|].
  exact (http_create_then_get _ _ _ _ _ H1 H2 H3 H4).
Defined.

(** [movies/3/reviews/] matches the regex of [review_create] only. *)
Lemma urlpatterns_unambiguous_witness :
  In ([Lit (txt "movies/"); IntConv; Lit (txt "/reviews/")], review_create_n) urlpatterns /\
  route_re [Lit (txt "movies/"); IntConv; Lit (txt "/reviews/")] (txt "movies/3/reviews/") [3] /\
  resolve (txt "movies/3/reviews/") = Some (review_create_n, [3]).
Proof.
  assert (H1 : In ([Lit (txt "movies/"); IntConv; Lit (txt "/reviews/")], review_create_n) urlpatterns)
    by (simpl; tauto).
  assert (H2 : route_re [Lit (txt "movies/"); IntConv; Lit (txt "/reviews/")] (txt "movies/3/reviews/") [3])
    by (apply match_route_sound; vm_compute; reflexivity).
  split_and!; [exact H1|exact H2|].
  exact (proj2 (proj2 (urlpatterns_unambiguous _ _ _ _ _ _ _ H1 H1 H2 H2))).
Defined.

(** The sample catalogue with its one review emptied by one [DELETE]. *)
Lemma reviews_can_be_emptied_witness :
  app_inv sample_db_reviewed /\
  exists d', rtc app_step sample_db_reviewed d' /\ rows (reviews d') = [] /\
             genres d' = genres sample_db_reviewed /\ movies d' = movies sample_db_reviewed.
Proof.
  assert (H : app_inv sample_db_reviewed).
  { split; [vm_compute; reflexivity|]. intros id r Hr. unfold get_row in Hr. simpl in Hr.
    case_match; simplify_eq.
    unfold review_admissible; simpl.
    split_and!; [discriminate|lia| |by repeat constructor|reflexivity|reflexivity].
    intros [Hc|[Hc|[Hc|[Hc|[]]]]]; discriminate. }
  split; [exact H|exact (reviews_can_be_emptied _ H)].
Defined.

End Urls.
